(** * Autocreator: the retry wrapper and the row loop of ProdCreator.py

    A shallow embedding of [src/ProdCreator.py]: the class [MistralAPI]
    ([_make_request] and the four [generate_*] methods), [generate_image]
    and [main].  Everything the script does to the outside world
    (HTTP requests, sleeping, printing, files) is recorded in a trace of
    events; everything the outside world answers is read from a [World]. *)

From Stdlib Require Import String Ascii List ZArith Lia Bool DecimalString.
From Stdlib Require DecimalFacts DecimalNat.
Import ListNotations.
Local Open Scope string_scope.
Local Open Scope Z_scope.

(** ** Python strings *)

Module PyStr.

(** The double quote U+0022, the character that the [generate_*] methods
    remove with [.replace]. *)
Definition quote : ascii := ascii_of_nat 34.

Definition is_quote (c : ascii) : bool := Ascii.eqb c quote.

(** [s.replace(quote, '')] *)
Fixpoint replace_quote (s : string) : string :=
  match s with
  | EmptyString => EmptyString
  | String c r => if is_quote c then replace_quote r else String c (replace_quote r)
  end.

(** [quote in s] *)
Fixpoint has_quote (s : string) : bool :=
  match s with
  | EmptyString => false
  | String c r => is_quote c || has_quote r
  end.

(** Strings stand for Python strs in their UTF-8 encoding; the value of an
    HTTP header is the exception, see [int] below. *)

(** [str.isspace] for a character of one byte: U+0009..000D, U+001C..001F
    and the space. *)
Definition space1 (a : ascii) : bool :=
  let x := nat_of_ascii a in
  (((9 <=? x) && (x <=? 13)) || ((28 <=? x) && (x <=? 32)))%nat.

(** ... of two bytes: U+0085 (C2 85) and U+00A0 (C2 A0). *)
Definition space2 (a b : ascii) : bool :=
  let x := nat_of_ascii a in
  let y := nat_of_ascii b in
  ((x =? 194) && ((y =? 133) || (y =? 160)))%nat.

(** ... of three bytes: U+1680 (E1 9A 80), U+2000..200A (E2 80 80..8A),
    U+2028, U+2029, U+202F (E2 80 A8, A9, AF), U+205F (E2 81 9F) and
    U+3000 (E3 80 80). *)
Definition space3 (a b c : ascii) : bool :=
  let x := nat_of_ascii a in
  let y := nat_of_ascii b in
  let z := nat_of_ascii c in
  (((x =? 225) && (y =? 154) && (z =? 128))
   || ((x =? 226) && (y =? 128)
       && (((128 <=? z) && (z <=? 138)) || (z =? 168) || (z =? 169) || (z =? 175)))
   || ((x =? 226) && (y =? 129) && (z =? 159))
   || ((x =? 227) && (y =? 128) && (z =? 128)))%nat.

(** Removes the whitespace characters that [s] starts with.  With [back]
    the string is read from its end, so the bytes of a character come in
    the opposite order. *)
Fixpoint lstrip_bytes (back : bool) (s : string) : string :=
  match s with
  | EmptyString => EmptyString
  | String a r =>
      if space1 a then lstrip_bytes back r
      else
        match r with
        | EmptyString => s
        | String b r2 =>
            if (if back then space2 b a else space2 a b) then lstrip_bytes back r2
            else
              match r2 with
              | EmptyString => s
              | String c r3 =>
                  if (if back then space3 c b a else space3 a b c)
                  then lstrip_bytes back r3
                  else s
              end
        end
  end.

Fixpoint rev_onto (s acc : string) : string :=
  match s with
  | EmptyString => acc
  | String c r => rev_onto r (String c acc)
  end.

Definition rev (s : string) : string := rev_onto s EmptyString.

(** [s.lstrip()] *)
Definition lstrip (s : string) : string := lstrip_bytes false s.

(** [s.strip()] *)
Definition strip (s : string) : string :=
  rev (lstrip_bytes true (rev (lstrip_bytes false s))).

Definition digit_of (c : ascii) : option Z :=
  let n := nat_of_ascii c in
  if ((48 <=? n) && (n <=? 57))%nat then Some (Z.of_nat n - 48) else None.

Definition underscore : ascii := ascii_of_nat 95.

(** The digit part of a decimal literal accepted by [int(str)]: digits
    with single underscores between them. *)
Fixpoint digits_value (acc : Z) (after_digit : bool) (s : string) : option Z :=
  match s with
  | EmptyString => if after_digit then Some acc else None
  | String c r =>
      match digit_of c with
      | Some d => digits_value (10 * acc + d) true r
      | None =>
          if Ascii.eqb c underscore && after_digit
          then digits_value acc false r
          else None
      end
  end.

(** The whitespace that [int] skips around a number in the value of a
    header.  [requests] decodes a header byte by byte (latin-1), so the
    value is a str of characters below U+0100, kept here one byte each:
    TAB..CR and the space, and the two whitespace characters above U+007F,
    U+0085 and U+00A0.  U+001C..001F are not skipped by [int]. *)
Definition int_space (c : ascii) : bool :=
  let n := nat_of_ascii c in
  (((9 <=? n) && (n <=? 13)) || (n =? 32) || (n =? 133) || (n =? 160))%nat.

Fixpoint int_lstrip (s : string) : string :=
  match s with
  | EmptyString => EmptyString
  | String c r => if int_space c then int_lstrip r else s
  end.

Fixpoint count_digits (s : string) : nat :=
  match s with
  | EmptyString => 0
  | String c r =>
      match digit_of c with
      | Some _ => S (count_digits r)
      | None => count_digits r
      end
  end.

(** [sys.int_max_str_digits]: the default limit on the digits of a decimal
    literal. *)
Definition int_max_str_digits : nat := 4300.

(** [int(s)] for the value of a header: surrounding whitespace, an
    optional sign, decimal digits with single underscores between them, at
    most [int_max_str_digits] digits.  [None] stands for the
    [ValueError]. *)
Definition int (s : string) : option Z :=
  match rev (int_lstrip (rev (int_lstrip s))) with
  | EmptyString => None
  | String c r =>
      let signed := Ascii.eqb c (ascii_of_nat 45) || Ascii.eqb c (ascii_of_nat 43) in
      let body := if signed then r else String c r in
      if (int_max_str_digits <? count_digits body)%nat then None
      else if Ascii.eqb c (ascii_of_nat 45)
           then option_map Z.opp (digits_value 0 false body)
           else digits_value 0 false body
  end.

(** [str(n)] for a non-negative index. *)
Definition of_nat (n : nat) : string := NilZero.string_of_uint (Nat.to_uint n).


(** U+00A0 and U+3000 in UTF-8, and U+001C. *)
Definition nbsp : string := String (ascii_of_nat 194) (String (ascii_of_nat 160) EmptyString).

Definition ideographic_space : string :=
  String (ascii_of_nat 227) (String (ascii_of_nat 128) (String (ascii_of_nat 128) EmptyString)).

Definition file_separator : string := String (ascii_of_nat 28) EmptyString.

(** U+00A0 as the one character that it is in the value of a header. *)
Definition nbsp_latin1 : string := String (ascii_of_nat 160) EmptyString.

End PyStr.

(** ** time.sleep *)

Module PyTime.

(** The largest number of seconds whose nanoseconds fit the signed 64-bit
    time of CPython: beyond it, in either direction, [time.sleep] raises
    [OverflowError] before anything else. *)
Definition max_seconds : Z := 9223372036.

(** A length that every platform sleeps.  Longer lengths, up to
    [max_seconds], may be refused by the platform. *)
Definition day : Z := 86400.

End PyTime.

(** ** Exceptions, events and the world *)

Inductive Exn : Type :=
| ConnectionError (msg : string)     (* requests.post / requests.get raised *)
| HTTPError (status : Z)             (* response.raise_for_status() *)
| MalformedBody                      (* .json()['choices'][0]['message']['content'].strip() *)
| ValueError (msg : string)
| OverflowError (msg : string)       (* time.sleep of a length that is too large *)
| OSError (msg : string)
| AttributeError (msg : string)
| IndexError (msg : string)
| FileNotFoundError (msg : string)
| EmptyDataError
| OtherError (msg : string).

(** What [requests.post] hands back when it does not raise. *)
Record Response : Type := mkResponse {
  status_code : Z;
  retry_after : option string;   (* response.headers.get('Retry-After'), one byte per character *)
  content : option string        (* json()['choices'][0]['message']['content'], when it is a str *)
}.

Inductive PostResult : Type :=
| PostRaised (e : Exn)
| PostReturned (r : Response).

Inductive Image : Type := MkImage (bytes : string).

(** The dictionary [results] of [main]: five lists filled in step. *)
Record Results : Type := mkResults {
  col_file_name : list string;      (* results["file_name"] *)
  col_local_path : list string;     (* results["local_path"] *)
  col_title : list string;          (* results["title"] *)
  col_description : list string;    (* results["description"] *)
  col_tags : list string            (* results["tags"] *)
}.

(** The lines the script prints. *)
Inductive Msg : Type :=
| MsgRateLimited (wait_time : Z)           (* "Rate limited. Waiting {wait_time} seconds..." *)
| MsgRetrying (e : Exn) (delay : Z)        (* "Error: {str(e)}. Retrying in {retry_delay} seconds..." *)
| MsgGeneratingTitle
| MsgGeneratingDescription
| MsgGeneratingImagePrompt
| MsgGeneratingTags
| MsgGeneratingImage
| MsgImageURL (url : string)
| MsgImageError (e : Exn)                  (* "Error generating image: {e}" *)
| MsgTitle (s : string)
| MsgDescription (s : string)
| MsgImagePrompt (s : string)
| MsgTags (s : string)
| MsgResultsSaved.

Inductive Event : Type :=
| EvPost (url api_key prompt : string) (timeout : Z)
| EvSleep (seconds : Z)
| EvPrint (m : Msg)
| EvTogether
| EvReadCsv (path : string)
| EvImagesGenerate (prompt : string)
| EvGet (url : string)
| EvSave (path : string) (img : Image)
| EvToCsv (path : string) (r : Results).

Definition Trace : Type := list Event.

(** An index label of the input table, as the f-string of the file name
    prints it: [str(idx)]. *)
Definition Label : Type := string.

(** The table that [pd.read_csv] returns: its column names and its rows
    in order, each with its index label and its cell of column 'details'.
    The labels are the default ones 0, 1, 2, ... unless the rows of the
    file have one more field than the header: then [read_csv] takes the
    first field of every row as its label, and the labels may be anything
    and may repeat. *)
Record DataFrame : Type := mkDataFrame {
  columns : list string;
  df_rows : list (Label * string)
}.

(** [df.index] and [df['details']], in row order. *)
Definition index (df : DataFrame) : list Label := map fst (df_rows df).

Definition details (df : DataFrame) : list string := map snd (df_rows df).

(** The default index of a table of [n] rows: [RangeIndex(n)]. *)
Definition range_index (n : nat) : list Label := map PyStr.of_nat (seq 0 n).

(** The table with columns [cols], the default index and the cells [cells]
    in column 'details'. *)
Definition frame (cols : list string) (cells : list string) : DataFrame :=
  {| columns := cols;
     df_rows := combine (range_index (List.length cells)) cells |}.

(** The answers of the outside world.  Each answer may depend on the whole
    history of the run so far. *)
Record World : Type := mkWorld {
  getenv : string -> option string;                          (* os.getenv *)
  w_Together : option Exn;                                   (* Together(): the error it raises, if any *)
  w_read_csv : Exn + DataFrame;                              (* pd.read_csv("input.csv") *)
  w_post : Trace -> string -> PostResult;                    (* requests.post, by prompt *)
  w_images_generate : Trace -> string -> Exn + list string;  (* the urls of response.data *)
  w_get : Trace -> string -> Exn + string;                   (* requests.get(url).content *)
  w_image_open : string -> Exn + Image;                      (* Image.open(io.BytesIO(content)) *)
  w_save : Trace -> string -> option Exn;                    (* image.save(file_name) *)
  w_to_csv : Trace -> option Exn;                            (* output_df.to_csv(...) *)
  w_sleep : Trace -> Z -> option Exn                         (* time.sleep of more than a day: the platform's refusal, if any *)
}.

(** ** A monad for code that leaves a trace and may raise *)

Inductive Outcome (A : Type) : Type :=
| Ok (a : A)
| Raised (e : Exn).
Arguments Ok {A} a.
Arguments Raised {A} e.

Definition M (A : Type) : Type := Trace -> Outcome A * Trace.

Definition ret {A} (a : A) : M A := fun tr => (Ok a, tr).

Definition raise {A} (e : Exn) : M A := fun tr => (Raised e, tr).

Definition bind {A B} (c : M A) (k : A -> M B) : M B :=
  fun tr =>
    match c tr with
    | (Ok a, tr') => k a tr'
    | (Raised e, tr') => (Raised e, tr')
    end.

(** [try: c  except Exception as e: handler e  else: k] *)
Definition try_except {A B} (c : M A) (k : A -> M B) (handler : Exn -> M B) : M B :=
  fun tr =>
    match c tr with
    | (Ok a, tr') => k a tr'
    | (Raised e, tr') => handler e tr'
    end.

Definition emit (ev : Event) : M unit := fun tr => (Ok tt, (tr ++ [ev])%list).

Definition history : M Trace := fun tr => (Ok tr, tr).

Declare Scope py_scope.
Delimit Scope py_scope with py.
Notation "x <- c ;; k" := (bind c (fun x => k))
  (at level 100, c at next level, right associativity) : py_scope.
Notation "c ;;; k" := (bind c (fun _ => k))
  (at level 100, right associativity) : py_scope.
Local Open Scope py_scope.

Definition print (m : Msg) : M unit := emit (EvPrint m).

(** ** class MistralAPI *)

Record MistralAPI : Type := mkMistralAPI {
  api_key : string;
  base_url : string;
  max_retries : nat;
  retry_delay : Z;
  timeout : Z
}.

(** [MistralAPI.__init__] *)
Definition MistralAPI_init (key : string) : MistralAPI :=
  {| api_key := key;
     base_url := "https://api.mistral.ai/v1/chat/completions";
     max_retries := 3;
     retry_delay := 2;
     timeout := 30 |}.

(** How one pass through the [try] block of [_make_request] ends when it
    does not raise: at [continue] or at [return]. *)
Inductive Flow : Type :=
| FlowContinue
| FlowReturn (s : string).

Definition nl : string := String (ascii_of_nat 10) EmptyString.

Section WithWorld.

Variable w : World.

(** [time.sleep(secs)] for an integer length: a length beyond
    [PyTime.max_seconds], in either direction, is an [OverflowError], any
    other negative length a [ValueError], and a length of more than a day
    is slept unless the platform refuses it. *)
Definition time_sleep (secs : Z) : M unit :=
  if (secs <? - PyTime.max_seconds) || (PyTime.max_seconds <? secs)
  then raise (OverflowError "timestamp too large to convert to C _PyTime_t")
  else if secs <? 0 then raise (ValueError "sleep length must be non-negative")
  else if secs <=? PyTime.day then emit (EvSleep secs)
  else
    tr <- history ;;
    match w_sleep w tr secs with
    | Some e => raise e
    | None => emit (EvSleep secs)
    end.

(** [requests.post(self.base_url, headers=..., json=..., timeout=self.timeout)] *)
Definition requests_post (self : MistralAPI) (prompt : string) : M Response :=
  tr <- history ;;
  emit (EvPost (base_url self) (api_key self) prompt (timeout self)) ;;;
  match w_post w tr prompt with
  | PostRaised e => raise e
  | PostReturned r => ret r
  end.

(** [int(response.headers.get('Retry-After', default))] *)
Definition retry_after_or (response : Response) (default : Z) : M Z :=
  match retry_after response with
  | None => ret default
  | Some h =>
      match PyStr.int h with
      | Some n => ret n
      | None => raise (ValueError "invalid literal for int() with base 10")
      end
  end.

(** [response.raise_for_status()] *)
Definition raise_for_status (response : Response) : M unit :=
  if (400 <=? status_code response) && (status_code response <? 600)
  then raise (HTTPError (status_code response))
  else ret tt.

(** [response.json()['choices'][0]['message']['content'].strip()] *)
Definition json_content_strip (response : Response) : M string :=
  match content response with
  | Some s => ret (PyStr.strip s)
  | None => raise MalformedBody
  end.

(** The body of the [try] in [_make_request], lines 56-79. *)
Definition try_body (self : MistralAPI) (prompt : string) (attempt : nat) : M Flow :=
  response <- requests_post self prompt ;;
  if status_code response =? 429 then
    wait_time <- retry_after_or response (retry_delay self * (Z.of_nat attempt + 1)) ;;
    print (MsgRateLimited wait_time) ;;;
    time_sleep wait_time ;;;
    ret FlowContinue
  else
    raise_for_status response ;;;
    s <- json_content_strip response ;;
    ret (FlowReturn s).

(** The [for attempt in ...] loop of [_make_request] over the attempts that
    are left.  Running off the end of the loop is Python's implicit
    [return None]. *)
Fixpoint attempts_loop (self : MistralAPI) (prompt : string) (attempts : list nat)
  : M (option string) :=
  match attempts with
  | [] => ret None
  | attempt :: rest =>
      try_except (try_body self prompt attempt)
        (fun flow =>
           match flow with
           | FlowContinue => attempts_loop self prompt rest
           | FlowReturn s => ret (Some s)
           end)
        (fun e =>
           if Z.of_nat attempt <? Z.of_nat (max_retries self) - 1 then
             print (MsgRetrying e (retry_delay self)) ;;;
             time_sleep (retry_delay self) ;;;
             attempts_loop self prompt rest
           else raise e)
  end%list.

(** [for attempt in range(self.max_retries): ...] *)
Definition _make_request (self : MistralAPI) (prompt : string) : M (option string) :=
  attempts_loop self prompt (seq 0 (max_retries self)).

(** [x.replace(quote, '')] on what [_make_request] returned: on [None] it is
    an [AttributeError]. *)
Definition replace_on (x : option string) : M string :=
  match x with
  | Some s => ret (PyStr.replace_quote s)
  | None => raise (AttributeError "'NoneType' object has no attribute 'replace'")
  end.

Definition generate_title (self : MistralAPI) (detail : string) : M string :=
  print MsgGeneratingTitle ;;;
  let prompt := "Generate a catchy title with theme: '" ++ detail ++ "'. Max 50 chars.'" in
  x <- _make_request self prompt ;;
  replace_on x.

Definition _get_template_description : string :=
  nl
  ++ "        <p>Acrylic art panels are a modern way to display beautiful and vibrant art that looks like it's embedded in clear glass. " ++ nl
  ++ "        They have a clear, glossy acrylic surface and a white vinyl backing. Four silver stand-offs make it very easy to mount to the wall.</p>" ++ nl
  ++ "        <p>.: Material: Clear acrylic with white vinyl backing<br />" ++ nl
  ++ "        .: Clear, glossy surface<br />" ++ nl
  ++ "        .: Seven sizes to choose from<br />" ++ nl
  ++ "        .: Horizontal, vertical and square options available<br />" ++ nl
  ++ "        .: NB! For indoor use only</p>" ++ nl
  ++ "        ".

Definition generate_description (self : MistralAPI) (detail title : string) : M string :=
  print MsgGeneratingDescription ;;;
  let prompt :=
    "Generate a compelling description for a product with:" ++ nl
    ++ "        Title: " ++ title ++ nl
    ++ "        Theme: " ++ detail ++ nl
    ++ "        Maximum 150 characters." in
  x <- _make_request self prompt ;;
  description <- replace_on x ;;
  ret (description ++ _get_template_description).

Definition generate_image_prompt (self : MistralAPI) (detail : string) : M string :=
  print MsgGeneratingImagePrompt ;;;
  let prompt :=
    "Generate a creative image prompt for a T-shirt with theme: '" ++ detail ++ "'. Max 75 chars." in
  x <- _make_request self prompt ;;
  replace_on x.

Definition generate_tags (self : MistralAPI) (detail : string) : M string :=
  print MsgGeneratingTags ;;;
  let prompt :=
    "Generate relevant tags for a T-shirt with theme: '" ++ detail ++ "'. Separate with commas." in
  x <- _make_request self prompt ;;
  replace_on x.

(** ** generate_image *)

Inductive TogetherClient : Type := MkTogether.

Definition lift {A} (x : Exn + A) : M A :=
  match x with
  | inl e => raise e
  | inr a => ret a
  end.

(** The body of the [try] in [generate_image], lines 171-182. *)
Definition generate_image_try (client : TogetherClient) (prompt : string)
  : M (Image * string) :=
  tr <- history ;;
  emit (EvImagesGenerate prompt) ;;;
  data <- lift (w_images_generate w tr prompt) ;;
  image_url <- match data with
               | u :: _ => ret u
               | [] => raise (IndexError "list index out of range")
               end%list ;;
  print (MsgImageURL image_url) ;;;
  tr' <- history ;;
  emit (EvGet image_url) ;;;
  bytes <- lift (w_get w tr' image_url) ;;
  image <- lift (w_image_open w bytes) ;;
  ret (image, image_url).

Definition generate_image (client : TogetherClient) (prompt : string)
  : M (option Image * option string) :=
  print MsgGeneratingImage ;;;
  try_except (generate_image_try client prompt)
    (fun r => ret (Some (fst r), Some (snd r)))
    (fun e => print (MsgImageError e) ;;; ret (None, None)).

(** ** main *)

(** [Together()] *)
Definition Together : M TogetherClient :=
  emit EvTogether ;;;
  match w_Together w with
  | Some e => raise e
  | None => ret MkTogether
  end.

(** The [try] around [pd.read_csv("input.csv")], lines 200-205. *)
Definition read_input : M DataFrame :=
  emit (EvReadCsv "input.csv") ;;;
  match w_read_csv w with
  | inr df => ret df
  | inl (FileNotFoundError _) =>
      raise (FileNotFoundError "input.csv not found in current directory")
  | inl EmptyDataError => raise (ValueError "input.csv is empty")
  | inl e => raise e
  end.

(** [df.iterrows()]: every row with its index label. *)
Definition iterrows (df : DataFrame) : list (Label * string) := df_rows df.

(** [image.save(file_name)] *)
Definition image_save (image : Image) (path : string) : M unit :=
  tr <- history ;;
  emit (EvSave path image) ;;;
  match w_save w tr path with
  | Some e => raise e
  | None => ret tt
  end.

(** [output_df.to_csv("product_information.csv", index=False)] *)
Definition to_csv (results : Results) : M unit :=
  tr <- history ;;
  emit (EvToCsv "product_information.csv" results) ;;;
  match w_to_csv w tr with
  | Some e => raise e
  | None => ret tt
  end.

Definition empty_results : Results :=
  {| col_file_name := []; col_local_path := []; col_title := [];
     col_description := []; col_tags := [] |}%list.

(** The five [append]s of lines 240-244. *)
Definition append_record (results : Results)
    (file_name title description tags : string) : Results :=
  {| col_file_name := col_file_name results ++ [file_name];
     col_local_path := col_local_path results ++ [file_name];
     col_title := col_title results ++ [title];
     col_description := col_description results ++ [description];
     col_tags := col_tags results ++ [tags] |}%list.

(** [f"image_{idx}.png"] *)
Definition image_file_name (idx : Label) : string :=
  "image_" ++ idx ++ ".png".

(** The body of the row loop of [main], lines 221-244. *)
Definition process_row (mistral : MistralAPI) (together_client : TogetherClient)
    (idx : Label) (detail : string) (results : Results) : M Results :=
  title <- generate_title mistral detail ;;
  print (MsgTitle title) ;;;
  description <- generate_description mistral detail title ;;
  print (MsgDescription description) ;;;
  image_prompt <- generate_image_prompt mistral detail ;;
  print (MsgImagePrompt image_prompt) ;;;
  tags <- generate_tags mistral detail ;;
  print (MsgTags tags) ;;;
  r <- generate_image together_client image_prompt ;;
  match fst r with
  | Some image =>
      let file_name := image_file_name idx in
      image_save image file_name ;;;
      ret (append_record results file_name title description tags)
  | None => ret results
  end.

(** [for idx, row in df.iterrows(): ...] *)
Fixpoint rows_loop (mistral : MistralAPI) (together_client : TogetherClient)
    (rows : list (Label * string)) (results : Results) : M Results :=
  match rows with
  | [] => ret results
  | (idx, detail) :: rest =>
      results' <- process_row mistral together_client idx detail results ;;
      rows_loop mistral together_client rest results'
  end%list.

(** [not mistral_api_key] *)
Definition falsy (x : option string) : bool :=
  match x with
  | None => true
  | Some s => String.eqb s EmptyString
  end.

Definition main : M unit :=
  let mistral_api_key := getenv w "MISTRAL_API_KEY" in
  if falsy mistral_api_key then
    raise (ValueError "MISTRAL_API_KEY environment variable is not set")
  else
    let mistral :=
      MistralAPI_init (match mistral_api_key with Some k => k | None => EmptyString end) in
    together_client <- Together ;;
    df <- read_input ;;
    if negb (existsb (String.eqb "details") (columns df)) then
      raise (ValueError "input.csv must contain a 'details' column")
    else
      results <- rows_loop mistral together_client (iterrows df) empty_results ;;
      to_csv results ;;;
      print MsgResultsSaved.

End WithWorld.

(** ** Reading traces *)

Definition is_post (ev : Event) : bool :=
  match ev with EvPost _ _ _ _ => true | _ => false end.

Definition is_save (ev : Event) : bool :=
  match ev with EvSave _ _ => true | _ => false end.

Definition is_to_csv (ev : Event) : bool :=
  match ev with EvToCsv _ _ => true | _ => false end.

(** The number of requests sent to the text service. *)
Definition count_posts (tr : Trace) : nat := List.length (filter is_post tr).

(** The paths of the image files written, in order. *)
Definition saved_paths (tr : Trace) : list string :=
  flat_map (fun ev => match ev with EvSave p _ => [p] | _ => [] end)%list tr.

(** ** Worlds that follow a script *)

Module Mock.

(** The text service answers its k-th request with the k-th entry of the
    script, and is unreachable once the script is used up. *)
Definition post_script (script : list PostResult) (tr : Trace) (prompt : string)
  : PostResult :=
  nth (count_posts tr) script (PostRaised (ConnectionError "connection refused")).

Definition ok (s : string) : PostResult :=
  PostReturned {| status_code := 200; retry_after := None; content := Some s |}.

Definition rate_limited (h : option string) : PostResult :=
  PostReturned {| status_code := 429; retry_after := h; content := None |}.

Definition env (mistral together : option string) (name : string) : option string :=
  if String.eqb name "MISTRAL_API_KEY" then mistral
  else if String.eqb name "TOGETHER_API_KEY" then together
  else None.

(** A world with both keys set, a text service that follows [script], the
    given input table, and an image service that serves a valid image for
    the prompts accepted by [image_ok] and fails for the others. *)
Definition world (script : list PostResult) (table : list string)
    (image_ok : string -> bool) : World :=
  {| getenv := env (Some "mk") (Some "tk");
     w_Together := None;
     w_read_csv := inr (frame ["details"] table)%list;
     w_post := post_script script;
     w_images_generate := fun _ p =>
       if image_ok p then inr [("https://img/" ++ p)%string]%list
       else inl (OtherError "image service unavailable");
     w_get := fun _ u => inr u;
     w_image_open := fun b => inr (MkImage b);
     w_save := fun _ _ => None;
     w_to_csv := fun _ => None;
     w_sleep := fun _ _ => None |}.

(** The text service answers every request the same way. *)
Definition constant_world (answer : PostResult) (table : list string)
    (image_ok : string -> bool) : World :=
  {| getenv := env (Some "mk") (Some "tk");
     w_Together := None;
     w_read_csv := inr (frame ["details"] table)%list;
     w_post := fun _ _ => answer;
     w_images_generate := fun _ p =>
       if image_ok p then inr [("https://img/" ++ p)%string]%list
       else inl (OtherError "image service unavailable");
     w_get := fun _ u => inr u;
     w_image_open := fun b => inr (MkImage b);
     w_save := fun _ _ => None;
     w_to_csv := fun _ => None;
     w_sleep := fun _ _ => None |}.

(** The text service answers every request with the prompt it was sent,
    so no two answers of a row are the same. *)
Definition echo_world (table : list string) (image_ok : string -> bool) : World :=
  {| getenv := env (Some "mk") (Some "tk");
     w_Together := None;
     w_read_csv := inr (frame ["details"] table)%list;
     w_post := fun _ p => ok p;
     w_images_generate := fun _ p =>
       if image_ok p then inr [("https://img/" ++ p)%string]%list
       else inl (OtherError "image service unavailable");
     w_get := fun _ u => inr u;
     w_image_open := fun b => inr (MkImage b);
     w_save := fun _ _ => None;
     w_to_csv := fun _ => None;
     w_sleep := fun _ _ => None |}.

(** The two credentials as given; the Together client refuses to start
    without its key, as the SDK does. *)
Definition env_world (mistral together : option string) : World :=
  {| getenv := env mistral together;
     w_Together := match together with
                   | Some _ => None
                   | None => Some (OtherError "The api_key client option must be set")
                   end;
     w_read_csv :=
       inr (frame ["details"] ["cats"])%list;
     w_post := fun _ _ => ok "X";
     w_images_generate := fun _ p => inr [("https://img/" ++ p)%string]%list;
     w_get := fun _ u => inr u;
     w_image_open := fun b => inr (MkImage b);
     w_save := fun _ _ => None;
     w_to_csv := fun _ => None;
     w_sleep := fun _ _ => None |}.

(** A world where the text service always answers "X", everything else
    succeeds, and the input table is [df]. *)
Definition table_world (df : DataFrame) : World :=
  {| getenv := env (Some "mk") (Some "tk");
     w_Together := None;
     w_read_csv := inr df;
     w_post := fun _ _ => ok "X";
     w_images_generate := fun _ p => inr [("https://img/" ++ p)%string]%list;
     w_get := fun _ u => inr u;
     w_image_open := fun b => inr (MkImage b);
     w_save := fun _ _ => None;
     w_to_csv := fun _ => None;
     w_sleep := fun _ _ => None |}.

(** The same with image files that cannot be written. *)
Definition full_disk_world (df : DataFrame) : World :=
  {| getenv := env (Some "mk") (Some "tk");
     w_Together := None;
     w_read_csv := inr df;
     w_post := fun _ _ => ok "X";
     w_images_generate := fun _ p => inr [("https://img/" ++ p)%string]%list;
     w_get := fun _ u => inr u;
     w_image_open := fun b => inr (MkImage b);
     w_save := fun _ _ => Some (OSError "No space left on device");
     w_to_csv := fun _ => None;
     w_sleep := fun _ _ => None |}.

End Mock.

(** ** Predicates used in the statements *)

(** [s] ends with [suffix]. *)
Definition ends_with (s suffix : string) : Prop :=
  exists prefix, s = (prefix ++ suffix)%string.

(** A computation only ever appends to the trace, and what it appends
    satisfies [P]. *)
Definition emits (P : Event -> Prop) {A} (c : M A) : Prop :=
  forall tr, exists evs, snd (c tr) = (tr ++ evs)%list /\ Forall P evs.

(** The request that [_make_request] sends for [prompt]. *)
Definition post_event (self : MistralAPI) (prompt : string) : Event :=
  EvPost (base_url self) (api_key self) prompt (timeout self).

(** An answer of the text service that is a failure other than a rate
    limit: [requests.post] raised, the status is an error status other than
    429, or the body has no [choices[0].message.content]. *)
Inductive non429_failure : PostResult -> Exn -> Prop :=
| failure_network e :
    non429_failure (PostRaised e) e
| failure_status r :
    status_code r <> 429 -> 400 <= status_code r < 600 ->
    non429_failure (PostReturned r) (HTTPError (status_code r))
| failure_body r :
    status_code r <> 429 -> ~ (400 <= status_code r < 600) ->
    content r = None ->
    non429_failure (PostReturned r) MalformedBody.

(** The wait that a 429 answer asks for: the integer in its Retry-After
    header, or [retry_delay * (attempt + 1)] without the header. *)
Inductive rate_limit_wait (self : MistralAPI) (attempt : nat) (r : Response)
  : Z -> Prop :=
| wait_header h n :
    retry_after r = Some h -> PyStr.int h = Some n ->
    rate_limit_wait self attempt r n
| wait_default :
    retry_after r = None ->
    rate_limit_wait self attempt r (retry_delay self * (Z.of_nat attempt + 1)).

(** [time.sleep] sleeps [n] seconds: a length of at most a day, or a
    longer one up to [PyTime.max_seconds] that the platform accepts. *)
Definition can_sleep (w : World) (n : Z) : Prop :=
  0 <= n <= PyTime.day \/
  (PyTime.day < n <= PyTime.max_seconds /\ forall tr, w_sleep w tr n = None).

(** A 429 answer whose wait can be slept: [int] reads it (or the header
    is absent) and [time.sleep] sleeps it. *)
Definition rate_limited (w : World) (self : MistralAPI) (attempt : nat)
    (p : PostResult) (n : Z) : Prop :=
  exists r, p = PostReturned r /\ status_code r = 429 /\
            rate_limit_wait self attempt r n /\ can_sleep w n.

(** [l] is [l'] with some entries left out, the others in the same
    order. *)
Inductive subseq {A : Type} : list A -> list A -> Prop :=
| subseq_nil : subseq nil nil
| subseq_skip x l l' : subseq l l' -> subseq l (x :: l')
| subseq_take x l l' : subseq l l' -> subseq (x :: l) (x :: l').

(** The four text-generation calls of a row (lines 224-231) all return:
    the title, the description, the image prompt and the tags, and the
    trace after the last of the four prints. *)
Inductive text_generated (w : World) (mistral : MistralAPI) (detail : string)
    (tr : Trace) : string -> string -> string -> string -> Trace -> Prop :=
| text_generated_intro t ta d tb ip tc tg td :
    generate_title w mistral detail tr = (Ok t, ta) ->
    generate_description w mistral detail t (ta ++ [EvPrint (MsgTitle t)])%list
      = (Ok d, tb) ->
    generate_image_prompt w mistral detail (tb ++ [EvPrint (MsgDescription d)])%list
      = (Ok ip, tc) ->
    generate_tags w mistral detail (tc ++ [EvPrint (MsgImagePrompt ip)])%list
      = (Ok tg, td) ->
    text_generated w mistral detail tr t d ip tg (td ++ [EvPrint (MsgTags tg)])%list.

(** One of the four text-generation calls of a row raises [e], the ones
    before it having returned. *)
Inductive text_generation_fails (w : World) (mistral : MistralAPI) (detail : string)
    (tr : Trace) (e : Exn) (tr' : Trace) : Prop :=
| title_fails :
    generate_title w mistral detail tr = (Raised e, tr') ->
    text_generation_fails w mistral detail tr e tr'
| description_fails t ta :
    generate_title w mistral detail tr = (Ok t, ta) ->
    generate_description w mistral detail t (ta ++ [EvPrint (MsgTitle t)])%list
      = (Raised e, tr') ->
    text_generation_fails w mistral detail tr e tr'
| image_prompt_fails t ta d tb :
    generate_title w mistral detail tr = (Ok t, ta) ->
    generate_description w mistral detail t (ta ++ [EvPrint (MsgTitle t)])%list
      = (Ok d, tb) ->
    generate_image_prompt w mistral detail (tb ++ [EvPrint (MsgDescription d)])%list
      = (Raised e, tr') ->
    text_generation_fails w mistral detail tr e tr'
| tags_fails t ta d tb ip tc :
    generate_title w mistral detail tr = (Ok t, ta) ->
    generate_description w mistral detail t (ta ++ [EvPrint (MsgTitle t)])%list
      = (Ok d, tb) ->
    generate_image_prompt w mistral detail (tb ++ [EvPrint (MsgDescription d)])%list
      = (Ok ip, tc) ->
    generate_tags w mistral detail (tc ++ [EvPrint (MsgImagePrompt ip)])%list
      = (Raised e, tr') ->
    text_generation_fails w mistral detail tr e tr'.

(** What the loop body does with the answer of [generate_image],
    lines 235-244. *)
Definition store_image (w : World) (idx : Label) (results : Results)
    (t d tg : string) (r : option Image * option string) : M Results :=
  match fst r with
  | Some image =>
      bind (image_save w image (image_file_name idx))
        (fun _ => ret (append_record results (image_file_name idx) t d tg))
  | None => ret results
  end.

(** [results'] is [results] with one record added for each index label of
    [ks], in that order: the file name and the local path of the record of
    label [k] are both image_k.png, and the five columns stay in step. *)
Definition records_added (results results' : Results) (ks : list Label) : Prop :=
  col_file_name results' =
    (col_file_name results ++ map (fun k => "image_" ++ k ++ ".png")%string ks)%list /\
  col_local_path results' =
    (col_local_path results ++ map (fun k => "image_" ++ k ++ ".png")%string ks)%list /\
  List.length (col_title results') = (List.length (col_title results) + List.length ks)%nat /\
  List.length (col_description results')
    = (List.length (col_description results) + List.length ks)%nat /\
  List.length (col_tags results') = (List.length (col_tags results) + List.length ks)%nat.

(** An answer of the text service that ends [_make_request] with a
    [return]: not a 429, not an error status, and with a content [c]. *)
Definition answers (p : PostResult) (c : string) : Prop :=
  exists r, p = PostReturned r /\ status_code r <> 429 /\
            ~ (400 <= status_code r < 600) /\ content r = Some c.

(** ** config.py: the configured paths *)

Module Config.







End Config.

(** A [requests.post] goes to the Mistral endpoint, with [key] as bearer
    token and the timeout of 30 seconds.  Every other event passes: the
    call of the image service and the [requests.get] of the image are not
    looked at. *)
Definition to_mistral (key : string) (ev : Event) : Prop :=
  match ev with
  | EvPost u k _ t =>
      u = "https://api.mistral.ai/v1/chat/completions" /\ k = key /\ t = 30
  | _ => True
  end.


(** The lengths of the sleeps of a trace, in order. *)
Definition sleeps (tr : Trace) : list Z :=
  flat_map (fun ev => match ev with EvSleep n => [n] | _ => [] end)%list tr.

(** [results'] is [results] with the same number of entries added at the
    end of each of the five columns. *)
Definition extends_results (results results' : Results) : Prop :=
  exists f l t d g,
    col_file_name results' = (col_file_name results ++ f)%list /\
    col_local_path results' = (col_local_path results ++ l)%list /\
    col_title results' = (col_title results ++ t)%list /\
    col_description results' = (col_description results ++ d)%list /\
    col_tags results' = (col_tags results ++ g)%list /\
    List.length l = List.length f /\ List.length t = List.length f /\
    List.length d = List.length f /\ List.length g = List.length f.

(** * Properties *)

Local Open Scope list_scope.

(** ** Facts about strings *)

Lemma has_quote_replace_quote (s : string) :
  PyStr.has_quote (PyStr.replace_quote s) = false.
Proof.
  induction s as [|c r IH]; cbn; [reflexivity|].
  destruct (PyStr.is_quote c) eqn:Hc; cbn; [exact IH|].
  now rewrite Hc.
Qed.

Lemma has_quote_append (a b : string) :
  PyStr.has_quote (a ++ b)%string = PyStr.has_quote a || PyStr.has_quote b.
Proof.
  induction a as [|c r IH]; cbn; [reflexivity|].
  now rewrite IH, orb_assoc.
Qed.

Lemma template_has_no_quote : PyStr.has_quote _get_template_description = false.
Proof. vm_compute. reflexivity. Qed.

(** ** Running the monad *)

Lemma bind_ok {A B} (c : M A) (k : A -> M B) tr a tr' :
  c tr = (Ok a, tr') -> bind c k tr = k a tr'.
Proof. unfold bind; intros ->; reflexivity. Qed.

Lemma bind_raised {A B} (c : M A) (k : A -> M B) tr e tr' :
  c tr = (Raised e, tr') -> bind c k tr = (Raised e, tr').
Proof. unfold bind; intros ->; reflexivity. Qed.

Lemma bind_print {B} m (k : unit -> M B) tr :
  bind (print m) k tr = k tt (tr ++ [EvPrint m]).
Proof. reflexivity. Qed.

Lemma bind_inv_ok {A B} (c : M A) (k : A -> M B) tr b tr' :
  bind c k tr = (Ok b, tr') ->
  exists a tr1, c tr = (Ok a, tr1) /\ k a tr1 = (Ok b, tr').
Proof.
  unfold bind; destruct (c tr) as [[a|e] tr1]; intros H; [|discriminate].
  now exists a, tr1.
Qed.

Lemma bind_inv_raised {A B} (c : M A) (k : A -> M B) tr e tr' :
  bind c k tr = (Raised e, tr') ->
  c tr = (Raised e, tr') \/
  exists a tr1, c tr = (Ok a, tr1) /\ k a tr1 = (Raised e, tr').
Proof.
  unfold bind; destruct (c tr) as [[a|e0] tr1]; intros H.
  - right; now exists a, tr1.
  - left; injection H as -> ->; reflexivity.
Qed.

Lemma emits_ret P {A} (a : A) : emits P (ret a).
Proof. intros tr; exists []; cbn; now rewrite app_nil_r. Qed.

Lemma emits_raise P {A} (e : Exn) : emits P (@raise A e).
Proof. intros tr; exists []; cbn; now rewrite app_nil_r. Qed.

Lemma emits_history P : emits P history.
Proof. intros tr; exists []; cbn; now rewrite app_nil_r. Qed.

Lemma emits_emit (P : Event -> Prop) ev : P ev -> emits P (emit ev).
Proof. intros H tr; exists [ev]; cbn; auto. Qed.

Lemma emits_bind P {A B} (c : M A) (k : A -> M B) :
  emits P c -> (forall a, emits P (k a)) -> emits P (bind c k).
Proof.
  intros Hc Hk tr. unfold bind.
  destruct (Hc tr) as (evs & E & F).
  destruct (c tr) as [[a|e] tr1]; cbn in E; subst tr1.
  - destruct (Hk a (tr ++ evs)) as (evs' & E' & F').
    exists (evs ++ evs'). rewrite E', app_assoc. split; [reflexivity|].
    apply Forall_app; auto.
  - exists evs; auto.
Qed.

Lemma emits_try_except P {A B} (c : M A) (k : A -> M B) (h : Exn -> M B) :
  emits P c -> (forall a, emits P (k a)) -> (forall e, emits P (h e)) ->
  emits P (try_except c k h).
Proof.
  intros Hc Hk Hh tr. unfold try_except.
  destruct (Hc tr) as (evs & E & F).
  destruct (c tr) as [[a|e] tr1]; cbn in E; subst tr1.
  - destruct (Hk a (tr ++ evs)) as (evs' & E' & F').
    exists (evs ++ evs'). rewrite E', app_assoc. split; [reflexivity|].
    apply Forall_app; auto.
  - destruct (Hh e (tr ++ evs)) as (evs' & E' & F').
    exists (evs ++ evs'). rewrite E', app_assoc. split; [reflexivity|].
    apply Forall_app; auto.
Qed.

Ltac emits_step :=
  first [ apply emits_ret | apply emits_raise | apply emits_history
        | apply emits_emit; cbn; auto
        | apply emits_bind; [|intros ?]
        | apply emits_try_except; [|intros ?|intros ?] ].

(** ** Sleeping *)

Lemma time_sleep_ok (w : World) (n : Z) tr :
  can_sleep w n -> time_sleep w n tr = (Ok tt, tr ++ [EvSleep n]).
Proof.
  unfold can_sleep. intros H.
  assert (B : 0 <= n <= PyTime.max_seconds)
    by (unfold PyTime.day, PyTime.max_seconds in *; lia).
  assert (E1 : (n <? - PyTime.max_seconds) = false)
    by (apply Z.ltb_ge; unfold PyTime.max_seconds in *; lia).
  assert (E2 : (PyTime.max_seconds <? n) = false) by (apply Z.ltb_ge; lia).
  assert (E3 : (n <? 0) = false) by (apply Z.ltb_ge; lia).
  unfold time_sleep. rewrite E1, E2, E3. cbn [orb].
  destruct H as [H | [H W]].
  - replace (n <=? PyTime.day) with true by (symmetry; apply Z.leb_le; lia).
    reflexivity.
  - replace (n <=? PyTime.day) with false by (symmetry; apply Z.leb_gt; lia).
    unfold bind, history. rewrite W. reflexivity.
Qed.

(** [time.sleep] sleeps the length or raises without sleeping. *)
Lemma time_sleep_cases (w : World) (n : Z) tr :
  time_sleep w n tr = (Ok tt, tr ++ [EvSleep n]) \/
  exists e, time_sleep w n tr = (Raised e, tr).
Proof.
  unfold time_sleep.
  destruct (_ || _); [right; eexists; reflexivity|].
  destruct (n <? 0); [right; eexists; reflexivity|].
  destruct (n <=? PyTime.day); [left; reflexivity|].
  unfold bind, history.
  destruct (w_sleep w tr n); [right; eexists; reflexivity|left; reflexivity].
Qed.

Lemma can_sleep_short (w : World) (n : Z) : 0 <= n <= 86400 -> can_sleep w n.
Proof. intros H. left. exact H. Qed.

(** ** One pass through the retry loop *)

Section MakeRequest.

Variable w : World.
Variable self : MistralAPI.
Variable prompt : string.

Lemma requests_post_eq tr :
  requests_post w self prompt tr =
  match w_post w tr prompt with
  | PostRaised e => (Raised e, tr ++ [post_event self prompt])
  | PostReturned r => (Ok r, tr ++ [post_event self prompt])
  end.
Proof.
  unfold requests_post, bind, history, emit, post_event.
  destruct (w_post w tr prompt); reflexivity.
Qed.

Lemma try_body_failure attempt tr e :
  non429_failure (w_post w tr prompt) e ->
  try_body w self prompt attempt tr = (Raised e, tr ++ [post_event self prompt]).
Proof.
  intros H. unfold try_body, bind at 1. rewrite requests_post_eq.
  inversion H as [e0 E | r N R E | r N R C E]; subst.
  - reflexivity.
  - apply Z.eqb_neq in N. rewrite N.
    unfold bind, raise_for_status.
    replace ((400 <=? status_code r) && (status_code r <? 600)) with true; [reflexivity|].
    symmetry; apply andb_true_iff; split; [apply Z.leb_le|apply Z.ltb_lt]; lia.
  - apply Z.eqb_neq in N. rewrite N.
    unfold bind, raise_for_status, json_content_strip.
    replace ((400 <=? status_code r) && (status_code r <? 600)) with false.
    + cbn. rewrite C. reflexivity.
    + symmetry; apply andb_false_iff.
      destruct (Z.leb_spec 400 (status_code r)); [right|left; reflexivity].
      apply Z.ltb_ge; lia.
Qed.

Lemma try_body_rate_limited attempt tr n :
  rate_limited w self attempt (w_post w tr prompt) n ->
  try_body w self prompt attempt tr =
  (Ok FlowContinue,
   tr ++ [post_event self prompt; EvPrint (MsgRateLimited n); EvSleep n]).
Proof.
  intros (r & E & S & W & N).
  unfold try_body, bind at 1. rewrite requests_post_eq, E, S. cbn [Z.eqb Pos.eqb].
  assert (R : retry_after_or r (retry_delay self * (Z.of_nat attempt + 1))
                (tr ++ [post_event self prompt])
              = (Ok n, tr ++ [post_event self prompt])).
  { unfold retry_after_or. destruct W as [h n Hh Hi | Hh]; rewrite Hh; [rewrite Hi|]; reflexivity. }
  rewrite (bind_ok _ _ _ _ _ R), bind_print.
  rewrite (bind_ok _ _ _ _ _ (time_sleep_ok w n _ N)).
  unfold ret. rewrite <- !app_assoc. reflexivity.
Qed.

Lemma attempts_loop_continue attempt rest tr tr' :
  try_body w self prompt attempt tr = (Ok FlowContinue, tr') ->
  attempts_loop w self prompt (attempt :: rest) tr = attempts_loop w self prompt rest tr'.
Proof. intros H. cbn [attempts_loop]. unfold try_except. rewrite H. reflexivity. Qed.

Lemma attempts_loop_retry attempt rest tr e tr' :
  try_body w self prompt attempt tr = (Raised e, tr') ->
  Z.of_nat attempt < Z.of_nat (max_retries self) - 1 ->
  can_sleep w (retry_delay self) ->
  attempts_loop w self prompt (attempt :: rest) tr =
  attempts_loop w self prompt rest
    (tr' ++ [EvPrint (MsgRetrying e (retry_delay self)); EvSleep (retry_delay self)]).
Proof.
  intros H L D. cbn [attempts_loop]. unfold try_except. rewrite H.
  apply Z.ltb_lt in L. rewrite L. rewrite bind_print.
  rewrite (bind_ok _ _ _ _ _ (time_sleep_ok w _ _ D)).
  rewrite <- app_assoc. reflexivity.
Qed.

Lemma attempts_loop_exhausted attempt rest tr e tr' :
  try_body w self prompt attempt tr = (Raised e, tr') ->
  Z.of_nat (max_retries self) - 1 <= Z.of_nat attempt ->
  attempts_loop w self prompt (attempt :: rest) tr = (Raised e, tr').
Proof.
  intros H L. cbn [attempts_loop]. unfold try_except. rewrite H.
  apply Z.ltb_ge in L. rewrite L. reflexivity.
Qed.

End MakeRequest.

(** ** The retry budget *)

(** C2: when every attempt of [_make_request] ends in a failure other than
    a rate limit (network error, error status, malformed body), the call
    sends exactly three requests, sleeps the fixed [retry_delay] of 2
    seconds after the first and after the second, and raises the error of
    the third: the error reaches the caller only once the budget is used
    up. *)
Theorem repeated_failure_raises_after_three_attempts
    (w : World) (key prompt : string) (tr : Trace) :
  (forall tr', exists e, non429_failure (w_post w tr' prompt) e) ->
  exists e1 e2 e3,
    _make_request w (MistralAPI_init key) prompt tr =
    (Raised e3,
     tr ++ [post_event (MistralAPI_init key) prompt;
            EvPrint (MsgRetrying e1 2); EvSleep 2;
            post_event (MistralAPI_init key) prompt;
            EvPrint (MsgRetrying e2 2); EvSleep 2;
            post_event (MistralAPI_init key) prompt]) /\
    non429_failure
      (w_post w
         (tr ++ [post_event (MistralAPI_init key) prompt;
                 EvPrint (MsgRetrying e1 2); EvSleep 2;
                 post_event (MistralAPI_init key) prompt;
                 EvPrint (MsgRetrying e2 2); EvSleep 2]) prompt) e3.
Proof.
  intros H. set (self := MistralAPI_init key). set (post := post_event self prompt).
  destruct (H tr) as [e1 F1].
  pose (tr1 := tr ++ [post; EvPrint (MsgRetrying e1 2); EvSleep 2]).
  destruct (H tr1) as [e2 F2].
  pose (tr2 := tr1 ++ [post; EvPrint (MsgRetrying e2 2); EvSleep 2]).
  destruct (H tr2) as [e3 F3].
  exists e1, e2, e3. unfold _make_request. change (seq 0 (max_retries self)) with [0; 1; 2]%nat.
  rewrite (attempts_loop_retry w self prompt 0 _ tr e1 _ (try_body_failure w self prompt 0 tr e1 F1));
    [|cbn; lia|apply can_sleep_short; cbn; lia].
  rewrite <- app_assoc. cbn [app]. change (retry_delay self) with 2. fold post. fold tr1.
  rewrite (attempts_loop_retry w self prompt 1 _ tr1 e2 _ (try_body_failure w self prompt 1 tr1 e2 F2));
    [|cbn; lia|apply can_sleep_short; cbn; lia].
  rewrite <- app_assoc. cbn [app]. change (retry_delay self) with 2. fold post. fold tr2.
  rewrite (attempts_loop_exhausted w self prompt 2 _ tr2 e3 _ (try_body_failure w self prompt 2 tr2 e3 F3));
    [|cbn; lia].
  fold post. unfold tr2, tr1 in *. rewrite <- !app_assoc in *. cbn [app] in *.
  split; [reflexivity|exact F3].
Qed.

Lemma repeated_failure_raises_after_three_attempts_witness :
  exists e1 e2 e3,
    _make_request
      (Mock.constant_world (PostRaised (ConnectionError "down")) [] (fun _ => true))
      (MistralAPI_init "mk") "p" [] =
    (Raised e3,
     [] ++ [post_event (MistralAPI_init "mk") "p";
            EvPrint (MsgRetrying e1 2); EvSleep 2;
            post_event (MistralAPI_init "mk") "p";
            EvPrint (MsgRetrying e2 2); EvSleep 2;
            post_event (MistralAPI_init "mk") "p"]) /\
    non429_failure
      (w_post (Mock.constant_world (PostRaised (ConnectionError "down")) [] (fun _ => true))
         ([] ++ [post_event (MistralAPI_init "mk") "p";
                 EvPrint (MsgRetrying e1 2); EvSleep 2;
                 post_event (MistralAPI_init "mk") "p";
                 EvPrint (MsgRetrying e2 2); EvSleep 2]) "p") e3.
Proof.
  apply (repeated_failure_raises_after_three_attempts
           (Mock.constant_world (PostRaised (ConnectionError "down")) [] (fun _ => true))
           "mk" "p" []).
  intros tr'. exists (ConnectionError "down"). simpl. constructor.
Defined.

(** ** What [strip] and [int] read *)

(** [strip] removes the whitespace of Unicode at both ends, and only
    there. *)
Lemma strip_removes_unicode_whitespace :
  PyStr.strip "  X y " = "X y" /\
  PyStr.strip (PyStr.nbsp ++ "X" ++ PyStr.ideographic_space ++ nl) = "X" /\
  PyStr.strip (PyStr.file_separator ++ "X" ++ PyStr.nbsp ++ "y" ++ PyStr.file_separator)
    = ("X" ++ PyStr.nbsp ++ "y")%string /\
  PyStr.strip (PyStr.ideographic_space ++ " " ++ PyStr.nbsp) = "" /\
  PyStr.strip "" = "".
Proof. vm_compute. repeat split. Qed.

(** [int] on the values that a Retry-After header may have. *)
Lemma int_reads_decimal_literals :
  PyStr.int "120" = Some 120 /\
  PyStr.int " 120 " = Some 120 /\
  PyStr.int "+7" = Some 7 /\
  PyStr.int "-7" = Some (-7) /\
  PyStr.int "007" = Some 7 /\
  PyStr.int "1_0" = Some 10 /\
  PyStr.int (PyStr.nbsp_latin1 ++ "7") = Some 7 /\
  PyStr.int (PyStr.file_separator ++ "7") = None /\
  PyStr.int "" = None /\
  PyStr.int "+ 7" = None /\
  PyStr.int "_1" = None /\
  PyStr.int "1_" = None /\
  PyStr.int "1__0" = None /\
  PyStr.int "1.5" = None /\
  PyStr.int "0x10" = None /\
  PyStr.int "Wed, 21 Oct 2015 07:28:00 GMT" = None.
Proof. vm_compute. repeat split. Qed.



















(** ** What each function may add to the trace *)

Lemma count_posts_app (a b : Trace) :
  count_posts (a ++ b) = (count_posts a + count_posts b)%nat.
Proof. unfold count_posts. now rewrite filter_app, length_app. Qed.

Lemma count_posts_quiet (evs : Trace) :
  Forall (fun ev => is_post ev = false) evs -> count_posts evs = 0%nat.
Proof.
  unfold count_posts. induction 1 as [|ev evs H _ IH]; cbn; [reflexivity|].
  now rewrite H.
Qed.

Section Emits.

Variable w : World.
Variable P : Event -> Prop.
Hypothesis P_print : forall m, P (EvPrint m).

Lemma emits_print m : emits P (print m).
Proof. apply emits_emit, P_print. Qed.

Lemma emits_lift {A} (x : Exn + A) : emits P (lift x).
Proof. destruct x; cbn; emits_step. Qed.

Lemma emits_replace_on x : emits P (replace_on x).
Proof. destruct x; cbn; emits_step. Qed.

Lemma emits_retry_after_or r d : emits P (retry_after_or r d).
Proof.
  unfold retry_after_or. destruct (retry_after r) as [h|]; [|emits_step].
  destruct (PyStr.int h); emits_step.
Qed.

Lemma emits_raise_for_status r : emits P (raise_for_status r).
Proof. unfold raise_for_status. destruct (_ && _); emits_step. Qed.

Lemma emits_json_content_strip r : emits P (json_content_strip r).
Proof. unfold json_content_strip. destruct (content r); emits_step. Qed.

Section Text.

Hypothesis P_sleep : forall n, P (EvSleep n).

Lemma emits_time_sleep n : emits P (time_sleep w n).
Proof.
  unfold time_sleep. destruct (_ || _); [emits_step|].
  destruct (n <? 0); [emits_step|].
  destruct (n <=? PyTime.day); [emits_step|].
  apply emits_bind; [emits_step|intros tr0].
  destruct (w_sleep w tr0 n); emits_step.
Qed.

(** What follows the request in the [try] block. *)
Lemma emits_after_post self attempt r :
  emits P
    (if status_code r =? 429 then
       bind (retry_after_or r (retry_delay self * (Z.of_nat attempt + 1)))
         (fun wait_time =>
            bind (print (MsgRateLimited wait_time))
              (fun _ => bind (time_sleep w wait_time) (fun _ => ret FlowContinue)))
     else
       bind (raise_for_status r)
         (fun _ => bind (json_content_strip r) (fun s => ret (FlowReturn s)))).
Proof.
  destruct (status_code r =? 429).
  - apply emits_bind; [apply emits_retry_after_or|intros n].
    apply emits_bind; [apply emits_print|intros _].
    apply emits_bind; [apply emits_time_sleep|intros _]. emits_step.
  - apply emits_bind; [apply emits_raise_for_status|intros _].
    apply emits_bind; [apply emits_json_content_strip|intros s]. emits_step.
Qed.

(** One pass through the [try] block sends exactly one request. *)
Lemma try_body_trace self prompt attempt tr :
  exists evs,
    snd (try_body w self prompt attempt tr) = tr ++ post_event self prompt :: evs /\
    Forall P evs.
Proof.
  unfold try_body, bind at 1. rewrite requests_post_eq.
  destruct (w_post w tr prompt) as [e|r].
  - exists []. cbn. auto.
  - destruct (emits_after_post self attempt r (tr ++ [post_event self prompt]))
      as (evs & E & F).
    exists evs. rewrite E, <- app_assoc. auto.
Qed.

Hypothesis P_post : forall u k p t, P (EvPost u k p t).

Lemma emits_try_body self prompt attempt : emits P (try_body w self prompt attempt).
Proof.
  intros tr. destruct (try_body_trace self prompt attempt tr) as (evs & E & F).
  exists (post_event self prompt :: evs). split; [exact E|].
  constructor; [apply P_post|exact F].
Qed.

Lemma emits_attempts_loop self prompt attempts :
  emits P (attempts_loop w self prompt attempts).
Proof.
  induction attempts as [|attempt rest IH]; cbn [attempts_loop]; [emits_step|].
  apply emits_try_except.
  - apply emits_try_body.
  - intros [|s]; [exact IH|emits_step].
  - intros e. destruct (_ <? _); [|emits_step].
    apply emits_bind; [apply emits_print|intros _].
    apply emits_bind; [apply emits_time_sleep|intros _]. exact IH.
Qed.

Lemma emits_make_request self prompt : emits P (_make_request w self prompt).
Proof. apply emits_attempts_loop. Qed.

Lemma emits_generate_title self detail : emits P (generate_title w self detail).
Proof.
  unfold generate_title.
  apply emits_bind; [apply emits_print|intros _].
  apply emits_bind; [apply emits_make_request|intros x]. apply emits_replace_on.
Qed.

Lemma emits_generate_description self detail title :
  emits P (generate_description w self detail title).
Proof.
  unfold generate_description.
  apply emits_bind; [apply emits_print|intros _].
  apply emits_bind; [apply emits_make_request|intros x].
  apply emits_bind; [apply emits_replace_on|intros d]. emits_step.
Qed.

Lemma emits_generate_image_prompt self detail :
  emits P (generate_image_prompt w self detail).
Proof.
  unfold generate_image_prompt.
  apply emits_bind; [apply emits_print|intros _].
  apply emits_bind; [apply emits_make_request|intros x]. apply emits_replace_on.
Qed.

Lemma emits_generate_tags self detail : emits P (generate_tags w self detail).
Proof.
  unfold generate_tags.
  apply emits_bind; [apply emits_print|intros _].
  apply emits_bind; [apply emits_make_request|intros x]. apply emits_replace_on.
Qed.

End Text.

Section Images.

Hypothesis P_generate : forall p, P (EvImagesGenerate p).
Hypothesis P_get : forall u, P (EvGet u).

Lemma emits_generate_image_try client prompt :
  emits P (generate_image_try w client prompt).
Proof.
  unfold generate_image_try.
  apply emits_bind; [emits_step|intros tr0].
  apply emits_bind; [apply emits_emit, P_generate|intros _].
  apply emits_bind; [apply emits_lift|intros data].
  apply emits_bind; [destruct data; emits_step|intros u].
  apply emits_bind; [apply emits_print|intros _].
  apply emits_bind; [emits_step|intros tr1].
  apply emits_bind; [apply emits_emit, P_get|intros _].
  apply emits_bind; [apply emits_lift|intros b].
  apply emits_bind; [apply emits_lift|intros i]. emits_step.
Qed.

Lemma emits_generate_image client prompt : emits P (generate_image w client prompt).
Proof.
  unfold generate_image.
  apply emits_bind; [apply emits_print|intros _].
  apply emits_try_except.
  - apply emits_generate_image_try.
  - intros r. emits_step.
  - intros e. apply emits_bind; [apply emits_print|intros _]. emits_step.
Qed.

End Images.

End Emits.

(** ** Rate limits and the retry budget *)

Lemma count_posts_after_post tr ev evs :
  is_post ev = true ->
  Forall (fun ev => is_post ev = false) evs ->
  count_posts (tr ++ ev :: evs) = S (count_posts tr).
Proof.
  intros Hp Hq. rewrite count_posts_app.
  change (ev :: evs) with ([ev] ++ evs). rewrite count_posts_app.
  rewrite (count_posts_quiet _ Hq). unfold count_posts at 2. cbn. rewrite Hp. cbn. lia.
Qed.

Lemma attempts_loop_posts (w : World) (self : MistralAPI) (prompt : string)
    (attempts : list nat) :
  forall tr,
    (count_posts (snd (attempts_loop w self prompt attempts tr))
     <= count_posts tr + List.length attempts)%nat.
Proof.
  induction attempts as [|attempt rest IH]; intros tr;
    [cbn [attempts_loop List.length]; unfold ret; cbn [snd]; lia|].
  cbn [attempts_loop List.length]. unfold try_except.
  destruct (try_body_trace w (fun ev => is_post ev = false)
              ltac:(reflexivity) ltac:(reflexivity) self prompt attempt tr)
    as (evs & E & F).
  assert (C := count_posts_after_post tr (post_event self prompt) evs eq_refl F).
  destruct (try_body w self prompt attempt tr) as [[[|s]|e] tr1]; cbn [snd] in E; subst tr1.
  - specialize (IH (tr ++ post_event self prompt :: evs)). lia.
  - unfold ret; cbn [snd]. lia.
  - destruct (Z.of_nat attempt <? Z.of_nat (max_retries self) - 1);
      [|unfold raise; cbn [snd]; lia].
    rewrite bind_print. unfold bind.
    destruct (time_sleep_cases w (retry_delay self)
                ((tr ++ post_event self prompt :: evs)
                   ++ [EvPrint (MsgRetrying e (retry_delay self))])) as [-> | (e' & ->)].
    + specialize (IH (((tr ++ post_event self prompt :: evs)
                         ++ [EvPrint (MsgRetrying e (retry_delay self))])
                        ++ [EvSleep (retry_delay self)])).
      rewrite 2!count_posts_app in IH.
      change (count_posts [EvPrint (MsgRetrying e (retry_delay self))]) with 0%nat in IH.
      change (count_posts [EvSleep (retry_delay self)]) with 0%nat in IH. lia.
    + cbn [snd]. rewrite count_posts_app.
      change (count_posts [EvPrint (MsgRetrying e (retry_delay self))]) with 0%nat. lia.
Qed.

Lemma attempts_loop_all_rate_limited (w : World) (self : MistralAPI) (prompt : string)
    (attempts : list nat) :
  (forall tr attempt, In attempt attempts ->
      exists n, rate_limited w self attempt (w_post w tr prompt) n) ->
  forall tr,
    exists tr',
      attempts_loop w self prompt attempts tr = (Ok None, tr') /\
      count_posts tr' = (count_posts tr + List.length attempts)%nat.
Proof.
  induction attempts as [|attempt rest IH]; intros H tr.
  - exists tr. cbn. split; [reflexivity|lia].
  - destruct (H tr attempt (or_introl eq_refl)) as [n R].
    specialize (IH (fun t a I => H t a (or_intror I))).
    rewrite (attempts_loop_continue w self prompt attempt rest tr _
               (try_body_rate_limited w self prompt attempt tr n R)).
    destruct (IH (tr ++ [post_event self prompt; EvPrint (MsgRateLimited n); EvSleep n]))
      as (tr' & E & C).
    exists tr'. split; [exact E|].
    rewrite C, count_posts_app. cbn. lia.
Qed.

(** C3, as stated, fails: every iteration can get a 429 answer and the
    call raise all the same.  When each 429 carries the Retry-After header
    99999999999999999999, [time.sleep] raises [OverflowError] inside the
    [try] of every iteration; the first two are retried by the [except]
    branch and the third is raised, so [_make_request] raises after its
    three requests and [generate_title] passes that error on.  With an HTTP
    date as header the same happens with the [ValueError] of [int]. *)
Lemma all_rate_limited_may_raise :
  fst (_make_request
         (Mock.constant_world (Mock.rate_limited (Some "99999999999999999999")) []
            (fun _ => true))
         (MistralAPI_init "mk") "p" []) =
    Raised (OverflowError "timestamp too large to convert to C _PyTime_t") /\
  count_posts
    (snd (_make_request
            (Mock.constant_world (Mock.rate_limited (Some "99999999999999999999")) []
               (fun _ => true))
            (MistralAPI_init "mk") "p" [])) = 3%nat /\
  fst (generate_title
         (Mock.constant_world (Mock.rate_limited (Some "99999999999999999999")) []
            (fun _ => true))
         (MistralAPI_init "mk") "cats" []) =
    Raised (OverflowError "timestamp too large to convert to C _PyTime_t") /\
  fst (_make_request
         (Mock.constant_world
            (Mock.rate_limited (Some "Wed, 21 Oct 2015 07:28:00 GMT")) []
            (fun _ => true))
         (MistralAPI_init "mk") "p" []) =
    Raised (ValueError "invalid literal for int() with base 10").
Proof. vm_compute. repeat split. Qed.

(** C3, amended: when every iteration of the loop of [_make_request] gets
    a 429 answer whose wait can be slept (the answer has no Retry-After
    header, or one that [int] reads, and [time.sleep] sleeps the length),
    the loop runs out after [max_retries] requests and the function
    returns [None]: it neither raises nor returns a string.  The caller
    [generate_title] then fails on the [.replace] of that [None] with an
    [AttributeError], not with an error of the request. *)
Theorem all_rate_limited_returns_None
    (w : World) (self : MistralAPI) (prompt detail : string) (tr : Trace) :
  (forall tr' p attempt, (attempt < max_retries self)%nat ->
      exists n, rate_limited w self attempt (w_post w tr' p) n) ->
  (exists tr',
      _make_request w self prompt tr = (Ok None, tr') /\
      count_posts tr' = (count_posts tr + max_retries self)%nat) /\
  (exists tr',
      generate_title w self detail tr =
      (Raised (AttributeError "'NoneType' object has no attribute 'replace'"), tr')).
Proof.
  intros H.
  assert (H' : forall p t a, In a (seq 0 (max_retries self)) ->
                 exists n, rate_limited w self a (w_post w t p) n).
  { intros p t a I. apply in_seq in I. apply H. lia. }
  split.
  - destruct (attempts_loop_all_rate_limited w self prompt
                (seq 0 (max_retries self)) (H' prompt) tr) as (tr' & E & C).
    exists tr'. split; [exact E|]. now rewrite C, length_seq.
  - unfold generate_title, bind at 1, print, emit.
    set (p := ("Generate a catchy title with theme: '" ++ detail ++ "'. Max 50 chars.'")%string).
    destruct (attempts_loop_all_rate_limited w self p
                (seq 0 (max_retries self)) (H' p) (tr ++ [EvPrint MsgGeneratingTitle]))
      as (tr' & E & _).
    exists tr'. unfold bind, _make_request. rewrite E. reflexivity.
Qed.

Lemma all_rate_limited_returns_None_witness :
  (exists tr',
      _make_request (Mock.constant_world (Mock.rate_limited None) [] (fun _ => true))
        (MistralAPI_init "mk") "p" [] = (Ok None, tr') /\
      count_posts tr' = (count_posts [] + max_retries (MistralAPI_init "mk"))%nat) /\
  (exists tr',
      generate_title (Mock.constant_world (Mock.rate_limited None) [] (fun _ => true))
        (MistralAPI_init "mk") "cats" [] =
      (Raised (AttributeError "'NoneType' object has no attribute 'replace'"), tr')).
Proof.
  apply (all_rate_limited_returns_None
           (Mock.constant_world (Mock.rate_limited None) [] (fun _ => true))
           (MistralAPI_init "mk") "p" "cats" []).
  intros tr' p attempt L. exists (2 * (Z.of_nat attempt + 1)).
  exists {| status_code := 429; retry_after := None; content := None |}.
  split; [reflexivity|]. split; [reflexivity|]. split.
  - apply (wait_default (MistralAPI_init "mk") attempt). reflexivity.
  - apply can_sleep_short. simpl in L. lia.
Defined.

(** C1, as stated, fails: two 429 answers followed by one network error use
    up the three iterations, so the single failure is raised at once and
    the fourth answer is never asked for; the same failure without the two
    429 answers before it is retried and the call returns. *)
Lemma rate_limit_counts_against_budget :
  fst (_make_request
         (Mock.world [Mock.rate_limited None; Mock.rate_limited None;
                      PostRaised (ConnectionError "down"); Mock.ok "X"]
            [] (fun _ => true))
         (MistralAPI_init "mk") "p" []) = Raised (ConnectionError "down") /\
  count_posts
    (snd (_make_request
            (Mock.world [Mock.rate_limited None; Mock.rate_limited None;
                         PostRaised (ConnectionError "down"); Mock.ok "X"]
               [] (fun _ => true))
            (MistralAPI_init "mk") "p" [])) = 3%nat /\
  fst (_make_request
         (Mock.world [PostRaised (ConnectionError "down"); Mock.ok "X"]
            [] (fun _ => true))
         (MistralAPI_init "mk") "p" []) = Ok (Some "X").
Proof. vm_compute. repeat split. Qed.

(** C1, amended: a 429 iteration whose wait can be slept (the answer has
    no Retry-After header, or one that [int] reads, and [time.sleep]
    sleeps the length) is not handled as a failure: nothing is raised, the
    wait is slept and the loop goes on.  But it uses up its iteration of
    the loop like any other: the loop goes on with the iterations that are
    left, and [_make_request] sends at most [max_retries] requests in all,
    429 answers included. *)
Theorem rate_limit_uses_up_an_iteration
    (w : World) (self : MistralAPI) (prompt : string)
    (attempt : nat) (rest : list nat) (tr : Trace) (n : Z) :
  rate_limited w self attempt (w_post w tr prompt) n ->
  attempts_loop w self prompt (attempt :: rest) tr =
    attempts_loop w self prompt rest
      (tr ++ [post_event self prompt; EvPrint (MsgRateLimited n); EvSleep n]) /\
  (forall tr0,
      count_posts (snd (_make_request w self prompt tr0))
      <= count_posts tr0 + max_retries self)%nat.
Proof.
  intros R. split.
  - apply attempts_loop_continue, try_body_rate_limited, R.
  - intros tr0. unfold _make_request.
    pose proof (attempts_loop_posts w self prompt (seq 0 (max_retries self)) tr0) as B.
    now rewrite length_seq in B.
Qed.

Lemma rate_limit_uses_up_an_iteration_witness :
  attempts_loop (Mock.constant_world (Mock.rate_limited None) [] (fun _ => true))
    (MistralAPI_init "mk") "p" [0; 1; 2]%nat [] =
    attempts_loop (Mock.constant_world (Mock.rate_limited None) [] (fun _ => true))
      (MistralAPI_init "mk") "p" [1; 2]%nat
      ([] ++ [post_event (MistralAPI_init "mk") "p"; EvPrint (MsgRateLimited 2); EvSleep 2]) /\
  (forall tr0,
      count_posts
        (snd (_make_request (Mock.constant_world (Mock.rate_limited None) [] (fun _ => true))
                (MistralAPI_init "mk") "p" tr0))
      <= count_posts tr0 + max_retries (MistralAPI_init "mk"))%nat.
Proof.
  apply (rate_limit_uses_up_an_iteration
           (Mock.constant_world (Mock.rate_limited None) [] (fun _ => true))
           (MistralAPI_init "mk") "p" 0%nat [1; 2]%nat [] 2).
  exists {| status_code := 429; retry_after := None; content := None |}.
  split; [reflexivity|]. split; [reflexivity|]. split.
  - apply (wait_default (MistralAPI_init "mk") 0). reflexivity.
  - apply can_sleep_short. lia.
Defined.

(** ** The text of a row *)

Lemma replace_on_inv x tr s tr' :
  replace_on x tr = (Ok s, tr') ->
  exists out, x = Some out /\ s = PyStr.replace_quote out /\ tr' = tr.
Proof.
  destruct x as [out|]; cbn; intros H; [|discriminate].
  injection H as <- <-. now exists out.
Qed.

Lemma generate_title_inv w self detail tr s tr' :
  generate_title w self detail tr = (Ok s, tr') ->
  exists prompt out,
    _make_request w self prompt (tr ++ [EvPrint MsgGeneratingTitle]) = (Ok (Some out), tr') /\
    s = PyStr.replace_quote out.
Proof.
  unfold generate_title. rewrite bind_print. intros H.
  apply bind_inv_ok in H as (x & tr1 & E & R).
  apply replace_on_inv in R as (out & -> & -> & ->). eauto.
Qed.

Lemma generate_image_prompt_inv w self detail tr s tr' :
  generate_image_prompt w self detail tr = (Ok s, tr') ->
  exists prompt out,
    _make_request w self prompt (tr ++ [EvPrint MsgGeneratingImagePrompt])
      = (Ok (Some out), tr') /\
    s = PyStr.replace_quote out.
Proof.
  unfold generate_image_prompt. rewrite bind_print. intros H.
  apply bind_inv_ok in H as (x & tr1 & E & R).
  apply replace_on_inv in R as (out & -> & -> & ->). eauto.
Qed.

Lemma generate_tags_inv w self detail tr s tr' :
  generate_tags w self detail tr = (Ok s, tr') ->
  exists prompt out,
    _make_request w self prompt (tr ++ [EvPrint MsgGeneratingTags]) = (Ok (Some out), tr') /\
    s = PyStr.replace_quote out.
Proof.
  unfold generate_tags. rewrite bind_print. intros H.
  apply bind_inv_ok in H as (x & tr1 & E & R).
  apply replace_on_inv in R as (out & -> & -> & ->). eauto.
Qed.

Lemma generate_description_inv w self detail title tr s tr' :
  generate_description w self detail title tr = (Ok s, tr') ->
  exists prompt out,
    _make_request w self prompt (tr ++ [EvPrint MsgGeneratingDescription])
      = (Ok (Some out), tr') /\
    s = (PyStr.replace_quote out ++ _get_template_description)%string.
Proof.
  unfold generate_description. rewrite bind_print. intros H.
  apply bind_inv_ok in H as (x & tr1 & E & H).
  apply bind_inv_ok in H as (d & tr2 & R & H).
  apply replace_on_inv in R as (out & -> & -> & ->).
  injection H as <- <-. eauto.
Qed.

(** C7: whatever the text service answers, a value returned by
    [generate_title], [generate_description], [generate_image_prompt] or
    [generate_tags] holds no double quote character: the quotes of the
    model output are removed before the value is handed on (and the
    template appended to the description has none). *)
Theorem generated_text_has_no_quote
    (w : World) (self : MistralAPI) (detail title s : string) (tr tr' : Trace) :
  generate_title w self detail tr = (Ok s, tr') \/
  generate_description w self detail title tr = (Ok s, tr') \/
  generate_image_prompt w self detail tr = (Ok s, tr') \/
  generate_tags w self detail tr = (Ok s, tr') ->
  PyStr.has_quote s = false.
Proof.
  intros [H | [H | [H | H]]].
  - apply generate_title_inv in H as (p & out & _ & ->). apply has_quote_replace_quote.
  - apply generate_description_inv in H as (p & out & _ & ->).
    now rewrite has_quote_append, has_quote_replace_quote, template_has_no_quote.
  - apply generate_image_prompt_inv in H as (p & out & _ & ->). apply has_quote_replace_quote.
  - apply generate_tags_inv in H as (p & out & _ & ->). apply has_quote_replace_quote.
Qed.

Lemma generated_text_has_no_quote_witness :
  generate_title
    (Mock.constant_world
       (Mock.ok (String PyStr.quote ("Cat" ++ String PyStr.quote EmptyString))) []
       (fun _ => true))
    (MistralAPI_init "mk") "cats" [] =
  (Ok "Cat",
   [EvPrint MsgGeneratingTitle;
    post_event (MistralAPI_init "mk")
      "Generate a catchy title with theme: 'cats'. Max 50 chars.'"]) /\
  PyStr.has_quote "Cat" = false.
Proof.
  split; [reflexivity|].
  apply (generated_text_has_no_quote
           (Mock.constant_world
              (Mock.ok (String PyStr.quote ("Cat" ++ String PyStr.quote EmptyString))) []
              (fun _ => true))
           (MistralAPI_init "mk") "cats" "" "Cat" []
           [EvPrint MsgGeneratingTitle;
            post_event (MistralAPI_init "mk")
              "Generate a catchy title with theme: 'cats'. Max 50 chars.'"]).
  left. reflexivity.
Defined.

(** ** One row *)

Lemma emits_run (P : Event -> Prop) {A} (c : M A) tr o tr' :
  emits P c -> c tr = (o, tr') -> exists evs, tr' = tr ++ evs /\ Forall P evs.
Proof.
  intros Hc E. destruct (Hc tr) as (evs & Es & F). rewrite E in Es. now exists evs.
Qed.

Lemma generate_image_eq w client prompt tr :
  generate_image w client prompt tr =
  match generate_image_try w client prompt (tr ++ [EvPrint MsgGeneratingImage]) with
  | (Ok r, tr') => (Ok (Some (fst r), Some (snd r)), tr')
  | (Raised e, tr') => (Ok (None, None), tr' ++ [EvPrint (MsgImageError e)])
  end.
Proof.
  unfold generate_image. rewrite bind_print. unfold try_except.
  destruct (generate_image_try _ _ _ _) as [[r|e] tr']; reflexivity.
Qed.

Lemma image_save_eq w image path tr :
  image_save w image path tr =
  match w_save w tr path with
  | Some e => (Raised e, tr ++ [EvSave path image])
  | None => (Ok tt, tr ++ [EvSave path image])
  end.
Proof.
  unfold image_save, bind, history, emit. destruct (w_save w tr path); reflexivity.
Qed.

Lemma process_row_text_generated w mistral client idx detail results tr t d ip tg tr4 :
  text_generated w mistral detail tr t d ip tg tr4 ->
  process_row w mistral client idx detail results tr =
  bind (generate_image w client ip) (store_image w idx results t d tg) tr4.
Proof.
  intros [t0 ta d0 tb ip0 tc tg0 td H1 H2 H3 H4]. unfold process_row.
  rewrite (bind_ok _ _ _ _ _ H1), bind_print.
  rewrite (bind_ok _ _ _ _ _ H2), bind_print.
  rewrite (bind_ok _ _ _ _ _ H3), bind_print.
  rewrite (bind_ok _ _ _ _ _ H4), bind_print.
  reflexivity.
Qed.

Lemma process_row_text_fails w mistral client idx detail results tr e tr' :
  text_generation_fails w mistral detail tr e tr' ->
  process_row w mistral client idx detail results tr = (Raised e, tr').
Proof.
  intros [H1 | t ta H1 H2 | t ta d tb H1 H2 H3 | t ta d tb ip tc H1 H2 H3 H4];
    unfold process_row.
  - now rewrite (bind_raised _ _ _ _ _ H1).
  - rewrite (bind_ok _ _ _ _ _ H1), bind_print.
    now rewrite (bind_raised _ _ _ _ _ H2).
  - rewrite (bind_ok _ _ _ _ _ H1), bind_print.
    rewrite (bind_ok _ _ _ _ _ H2), bind_print.
    now rewrite (bind_raised _ _ _ _ _ H3).
  - rewrite (bind_ok _ _ _ _ _ H1), bind_print.
    rewrite (bind_ok _ _ _ _ _ H2), bind_print.
    rewrite (bind_ok _ _ _ _ _ H3), bind_print.
    now rewrite (bind_raised _ _ _ _ _ H4).
Qed.

(** The text of a row is either generated or fails. *)
Lemma text_generated_or_fails w mistral detail tr :
  (exists e tr', text_generation_fails w mistral detail tr e tr') \/
  (exists t d ip tg tr4, text_generated w mistral detail tr t d ip tg tr4).
Proof.
  destruct (generate_title w mistral detail tr) as [[t|e] ta] eqn:H1;
    [|left; exists e, ta; now apply title_fails].
  destruct (generate_description w mistral detail t (ta ++ [EvPrint (MsgTitle t)]))
    as [[d|e] tb] eqn:H2;
    [|left; exists e, tb; now apply description_fails with t ta].
  destruct (generate_image_prompt w mistral detail (tb ++ [EvPrint (MsgDescription d)]))
    as [[ip|e] tc] eqn:H3;
    [|left; exists e, tc; now apply image_prompt_fails with t ta d tb].
  destruct (generate_tags w mistral detail (tc ++ [EvPrint (MsgImagePrompt ip)]))
    as [[tg|e] td] eqn:H4;
    [|left; exists e, td; now apply tags_fails with t ta d tb ip tc].
  right. exists t, d, ip, tg, (td ++ [EvPrint (MsgTags tg)]).
  now apply text_generated_intro with ta tb tc.
Qed.

Section RowEmits.

Variable w : World.
Variable P : Event -> Prop.
Hypothesis P_print : forall m, P (EvPrint m).
Hypothesis P_sleep : forall n, P (EvSleep n).
Hypothesis P_post : forall u k p t, P (EvPost u k p t).

Lemma text_generated_trace mistral detail tr t d ip tg tr4 :
  text_generated w mistral detail tr t d ip tg tr4 ->
  exists evs, tr4 = tr ++ evs /\ Forall P evs.
Proof.
  intros [t0 ta d0 tb ip0 tc tg0 td H1 H2 H3 H4].
  apply (emits_run P) in H1 as (e1 & -> & F1); [|now apply emits_generate_title].
  apply (emits_run P) in H2 as (e2 & -> & F2); [|now apply emits_generate_description].
  apply (emits_run P) in H3 as (e3 & -> & F3); [|now apply emits_generate_image_prompt].
  apply (emits_run P) in H4 as (e4 & -> & F4); [|now apply emits_generate_tags].
  exists (e1 ++ [EvPrint (MsgTitle t0)] ++ e2 ++ [EvPrint (MsgDescription d0)] ++ e3
             ++ [EvPrint (MsgImagePrompt ip0)] ++ e4 ++ [EvPrint (MsgTags tg0)]).
  split; [now rewrite <- !app_assoc|].
  repeat (apply Forall_app; split); auto.
Qed.

Lemma text_generation_fails_trace mistral detail tr e tr' :
  text_generation_fails w mistral detail tr e tr' ->
  exists evs, tr' = tr ++ evs /\ Forall P evs.
Proof.
  intros [H1 | t ta H1 H2 | t ta d tb H1 H2 H3 | t ta d tb ip tc H1 H2 H3 H4].
  - apply (emits_run P) in H1 as (e1 & -> & F1); [|now apply emits_generate_title].
    eauto.
  - apply (emits_run P) in H1 as (e1 & -> & F1); [|now apply emits_generate_title].
    apply (emits_run P) in H2 as (e2 & -> & F2); [|now apply emits_generate_description].
    exists (e1 ++ [EvPrint (MsgTitle t)] ++ e2).
    split; [now rewrite <- !app_assoc|]. repeat (apply Forall_app; split); auto.
  - apply (emits_run P) in H1 as (e1 & -> & F1); [|now apply emits_generate_title].
    apply (emits_run P) in H2 as (e2 & -> & F2); [|now apply emits_generate_description].
    apply (emits_run P) in H3 as (e3 & -> & F3); [|now apply emits_generate_image_prompt].
    exists (e1 ++ [EvPrint (MsgTitle t)] ++ e2 ++ [EvPrint (MsgDescription d)] ++ e3).
    split; [now rewrite <- !app_assoc|]. repeat (apply Forall_app; split); auto.
  - apply (emits_run P) in H1 as (e1 & -> & F1); [|now apply emits_generate_title].
    apply (emits_run P) in H2 as (e2 & -> & F2); [|now apply emits_generate_description].
    apply (emits_run P) in H3 as (e3 & -> & F3); [|now apply emits_generate_image_prompt].
    apply (emits_run P) in H4 as (e4 & -> & F4); [|now apply emits_generate_tags].
    exists (e1 ++ [EvPrint (MsgTitle t)] ++ e2 ++ [EvPrint (MsgDescription d)] ++ e3
               ++ [EvPrint (MsgImagePrompt ip)] ++ e4).
    split; [now rewrite <- !app_assoc|]. repeat (apply Forall_app; split); auto.
Qed.

End RowEmits.

(** ** Rows whose image fails *)

Lemma saved_paths_app (a b : Trace) : saved_paths (a ++ b) = saved_paths a ++ saved_paths b.
Proof. apply flat_map_app. Qed.

Lemma saved_paths_quiet (evs : Trace) :
  Forall (fun ev => is_save ev = false) evs -> saved_paths evs = [].
Proof.
  unfold saved_paths. induction 1 as [|ev evs H _ IH]; [reflexivity|].
  cbn [flat_map]. rewrite IH. destruct ev; try reflexivity; discriminate.
Qed.

Lemma generate_image_try_call_raises w client prompt tr e :
  w_images_generate w tr prompt = inl e ->
  generate_image_try w client prompt tr = (Raised e, tr ++ [EvImagesGenerate prompt]).
Proof.
  intros H. unfold generate_image_try, bind, history, emit, lift. now rewrite H.
Qed.

Lemma generate_image_try_fetch_raises w client prompt tr u us e :
  w_images_generate w tr prompt = inr (u :: us) ->
  w_get w (tr ++ [EvImagesGenerate prompt; EvPrint (MsgImageURL u)]) u = inl e ->
  generate_image_try w client prompt tr =
  (Raised e, tr ++ [EvImagesGenerate prompt; EvPrint (MsgImageURL u); EvGet u]).
Proof.
  intros H G. unfold generate_image_try, bind, history, emit, lift, print, emit.
  rewrite H. cbn. rewrite <- !app_assoc. cbn. rewrite G. reflexivity.
Qed.

(** C4: when the [try] block of [generate_image] raises for a row (the
    call to the image service, the fetch of the image, or the decoding),
    the exception is caught there and printed, [generate_image] returns
    [(None, None)], the loop body returns the results as they were, no
    image file is written during the row, and the loop goes on with the
    next row. *)
Theorem image_failure_skips_row
    (w : World) (mistral : MistralAPI) (client : TogetherClient)
    (idx : Label) (detail : string) (results : Results) (rest : list (Label * string))
    (tr : Trace) (t d ip tg : string) (tr4 : Trace) (e : Exn) (tr5 : Trace) :
  text_generated w mistral detail tr t d ip tg tr4 ->
  generate_image_try w client ip (tr4 ++ [EvPrint MsgGeneratingImage]) = (Raised e, tr5) ->
  generate_image w client ip tr4 = (Ok (None, None), tr5 ++ [EvPrint (MsgImageError e)]) /\
  process_row w mistral client idx detail results tr =
    (Ok results, tr5 ++ [EvPrint (MsgImageError e)]) /\
  saved_paths (tr5 ++ [EvPrint (MsgImageError e)]) = saved_paths tr /\
  rows_loop w mistral client ((idx, detail) :: rest) results tr =
    rows_loop w mistral client rest results (tr5 ++ [EvPrint (MsgImageError e)]).
Proof.
  intros T I.
  assert (G : generate_image w client ip tr4 =
              (Ok (None, None), tr5 ++ [EvPrint (MsgImageError e)])).
  { rewrite generate_image_eq, I. reflexivity. }
  assert (R : process_row w mistral client idx detail results tr =
              (Ok results, tr5 ++ [EvPrint (MsgImageError e)])).
  { rewrite (process_row_text_generated _ _ client idx _ results _ _ _ _ _ _ T).
    rewrite (bind_ok _ _ _ _ _ G). reflexivity. }
  repeat split; auto.
  - apply (text_generated_trace w (fun ev => is_save ev = false)) in T
      as (evs1 & -> & F1); try reflexivity.
    apply (emits_run (fun ev => is_save ev = false)) in I as (evs2 & -> & F2);
      [|apply emits_generate_image_try; reflexivity].
    rewrite !saved_paths_app, (saved_paths_quiet _ F1), (saved_paths_quiet _ F2).
    cbn. now rewrite !app_nil_r.
  - cbn [rows_loop]. now rewrite (bind_ok _ _ _ _ _ R).
Qed.

Lemma image_failure_skips_row_witness :
  exists tr5,
    process_row (Mock.constant_world (Mock.ok "X") ["cats"] (fun _ => false))
      (MistralAPI_init "mk") MkTogether "0" "cats" empty_results [] =
      (Ok empty_results,
       tr5 ++ [EvPrint (MsgImageError (OtherError "image service unavailable"))]) /\
    saved_paths (tr5 ++ [EvPrint (MsgImageError (OtherError "image service unavailable"))])
    = saved_paths [].
Proof.
  edestruct (image_failure_skips_row
               (Mock.constant_world (Mock.ok "X") ["cats"] (fun _ => false))
               (MistralAPI_init "mk") MkTogether "0" "cats" empty_results [] [])
    as (_ & R & S & _).
  - eapply text_generated_intro; lazy; reflexivity.
  - lazy. reflexivity.
  - eexists. split; [exact R|exact S].
Defined.

(** ** The loop over the rows *)

Lemma rows_loop_app w mistral client pre post :
  forall results tr,
    rows_loop w mistral client (pre ++ post) results tr =
    bind (rows_loop w mistral client pre results)
         (fun r => rows_loop w mistral client post r) tr.
Proof.
  induction pre as [|[idx detail] pre IH]; intros results tr; [reflexivity|].
  cbn [app rows_loop]. unfold bind.
  destruct (process_row w mistral client idx detail results tr) as [[r|e] tr1];
    [|reflexivity].
  rewrite IH. reflexivity.
Qed.

Lemma range_index_length n : List.length (range_index n) = n.
Proof. unfold range_index. now rewrite length_map, length_seq. Qed.

Lemma frame_index cols cells : index (frame cols cells) = range_index (List.length cells).
Proof.
  unfold index, frame. cbn [df_rows].
  generalize (range_index_length (List.length cells)).
  generalize (range_index (List.length cells)) as l.
  induction cells as [|c cells IH]; intros [|x l] E; try discriminate; [reflexivity|].
  cbn in *. f_equal. apply IH. lia.
Qed.

Lemma frame_details cols cells : details (frame cols cells) = cells.
Proof.
  unfold details, frame. cbn [df_rows].
  generalize (range_index_length (List.length cells)).
  generalize (range_index (List.length cells)) as l.
  induction cells as [|c cells IH]; intros [|x l] E; try discriminate; [reflexivity|].
  cbn in *. f_equal. apply IH. lia.
Qed.

Section LoopEmits.

Variable w : World.
Variable P : Event -> Prop.
Hypothesis P_print : forall m, P (EvPrint m).
Hypothesis P_sleep : forall n, P (EvSleep n).
Hypothesis P_post : forall u k p t, P (EvPost u k p t).
Hypothesis P_generate : forall p, P (EvImagesGenerate p).
Hypothesis P_get : forall u, P (EvGet u).
Hypothesis P_save : forall p i, P (EvSave p i).

Lemma emits_image_save image path : emits P (image_save w image path).
Proof.
  unfold image_save.
  apply emits_bind; [emits_step|intros tr0].
  apply emits_bind; [apply emits_emit, P_save|intros _].
  destruct (w_save w tr0 path); emits_step.
Qed.

Lemma emits_process_row mistral client idx detail results :
  emits P (process_row w mistral client idx detail results).
Proof.
  unfold process_row.
  apply emits_bind; [now apply emits_generate_title|intros t].
  apply emits_bind; [now apply emits_print|intros _].
  apply emits_bind; [now apply emits_generate_description|intros d].
  apply emits_bind; [now apply emits_print|intros _].
  apply emits_bind; [now apply emits_generate_image_prompt|intros ip].
  apply emits_bind; [now apply emits_print|intros _].
  apply emits_bind; [now apply emits_generate_tags|intros tg].
  apply emits_bind; [now apply emits_print|intros _].
  apply emits_bind; [now apply emits_generate_image|intros r].
  destruct (fst r) as [image|]; [|emits_step].
  apply emits_bind; [apply emits_image_save|intros _]. emits_step.
Qed.

Lemma emits_rows_loop mistral client rows :
  forall results, emits P (rows_loop w mistral client rows results).
Proof.
  induction rows as [|[idx detail] rest IH]; intros results; cbn [rows_loop];
    [emits_step|].
  apply emits_bind; [apply emits_process_row|intros r]. apply IH.
Qed.

End LoopEmits.

Lemma Together_eq (w : World) tr :
  Together w tr =
  match w_Together w with
  | Some e => (Raised e, tr ++ [EvTogether])
  | None => (Ok MkTogether, tr ++ [EvTogether])
  end.
Proof. unfold Together, bind, emit. destruct (w_Together w); reflexivity. Qed.

Lemma read_input_ok (w : World) (df : DataFrame) tr :
  w_read_csv w = inr df ->
  read_input w tr = (Ok df, tr ++ [EvReadCsv "input.csv"]).
Proof. intros R. unfold read_input, bind, emit. now rewrite R. Qed.

(** [main] up to the loop, when the key, the client and the input are there. *)
Lemma main_reaches_loop (w : World) (key : string) (df : DataFrame) :
  getenv w "MISTRAL_API_KEY" = Some key ->
  key <> EmptyString ->
  w_Together w = None ->
  w_read_csv w = inr df ->
  existsb (String.eqb "details") (columns df) = true ->
  main w [] =
  bind (rows_loop w (MistralAPI_init key) MkTogether (iterrows df) empty_results)
       (fun results => bind (to_csv w results) (fun _ => print MsgResultsSaved))
       [EvTogether; EvReadCsv "input.csv"].
Proof.
  intros K N T R C. unfold main. rewrite K. cbn [falsy].
  apply String.eqb_neq in N. rewrite N.
  assert (HT : Together w [] = (Ok MkTogether, [EvTogether])).
  { rewrite Together_eq, T. reflexivity. }
  rewrite (bind_ok _ _ _ _ _ HT).
  rewrite (bind_ok _ _ _ _ _ (read_input_ok w df [EvTogether] R)).
  rewrite C. reflexivity.
Qed.

Lemma filter_quiet (f : Event -> bool) (evs : Trace) :
  Forall (fun ev => f ev = false) evs -> filter f evs = [].
Proof. induction 1 as [|ev evs H _ IH]; cbn; [reflexivity|]. now rewrite H. Qed.

(** C5: when one of the four text-generation calls of a row raises, the
    loop body raises the same error (nothing around the text generation
    catches it), the loop and [main] raise it too where the row left the
    trace, so no later row is processed, and no output table has been
    written. *)
Theorem text_failure_aborts_batch
    (w : World) (key : string) (df : DataFrame)
    (pre : list (Label * string)) (idx : Label) (detail : string)
    (post : list (Label * string))
    (results1 : Results) (tr1 : Trace) (e : Exn) (tr2 : Trace) :
  getenv w "MISTRAL_API_KEY" = Some key ->
  key <> EmptyString ->
  w_Together w = None ->
  w_read_csv w = inr df ->
  existsb (String.eqb "details") (columns df) = true ->
  iterrows df = pre ++ (idx, detail) :: post ->
  rows_loop w (MistralAPI_init key) MkTogether pre empty_results
    [EvTogether; EvReadCsv "input.csv"] = (Ok results1, tr1) ->
  text_generation_fails w (MistralAPI_init key) detail tr1 e tr2 ->
  process_row w (MistralAPI_init key) MkTogether idx detail results1 tr1
    = (Raised e, tr2) /\
  main w [] = (Raised e, tr2) /\
  filter is_to_csv tr2 = [].
Proof.
  intros K N T R C D L F.
  assert (PR := process_row_text_fails w (MistralAPI_init key) MkTogether
                  idx detail results1 tr1 e tr2 F).
  split; [exact PR|]. split.
  - rewrite (main_reaches_loop w key df K N T R C).
    apply bind_raised.
    rewrite D, rows_loop_app.
    rewrite (bind_ok _ _ _ _ _ L). cbn [rows_loop]. now apply bind_raised.
  - apply (emits_run (fun ev => is_to_csv ev = false)) in L as (evs1 & -> & F1);
      [|apply emits_rows_loop; reflexivity].
    apply (text_generation_fails_trace w (fun ev => is_to_csv ev = false)) in F
      as (evs2 & -> & F2); try reflexivity.
    rewrite !filter_app, (filter_quiet _ _ F1), (filter_quiet _ _ F2). reflexivity.
Qed.

Lemma text_failure_aborts_batch_witness :
  exists tr2,
    main (Mock.world
            [Mock.ok "A"; Mock.ok "B"; Mock.ok "C"; Mock.ok "D";
             PostRaised (ConnectionError "down"); PostRaised (ConnectionError "down");
             PostRaised (ConnectionError "down")]
            ["cats"; "dogs"; "owls"] (fun _ => true)) [] =
      (Raised (ConnectionError "down"), tr2) /\
    filter is_to_csv tr2 = [].
Proof.
  edestruct (text_failure_aborts_batch
               (Mock.world
                  [Mock.ok "A"; Mock.ok "B"; Mock.ok "C"; Mock.ok "D";
                   PostRaised (ConnectionError "down"); PostRaised (ConnectionError "down");
                   PostRaised (ConnectionError "down")]
                  ["cats"; "dogs"; "owls"] (fun _ => true))
               "mk" (frame ["details"] ["cats"; "dogs"; "owls"])
               [("0", "cats")] "1" "dogs" [("2", "owls")])
    as (_ & Hmain & Hcsv).
  - reflexivity.
  - discriminate.
  - reflexivity.
  - reflexivity.
  - reflexivity.
  - reflexivity.
  - lazy. reflexivity.
  - apply title_fails. lazy. reflexivity.
  - eexists. split; [exact Hmain|exact Hcsv].
Defined.

(** ** Rows whose image succeeds *)

Lemma records_added_refl r : records_added r r [].
Proof. unfold records_added. cbn. rewrite !app_nil_r. repeat split; lia. Qed.

Lemma records_added_step r r' i t d tg ks :
  records_added (append_record r (image_file_name i) t d tg) r' ks ->
  records_added r r' (i :: ks).
Proof.
  unfold records_added. cbn. rewrite <- !app_assoc, !length_app. cbn.
  intros (A & B & C & D & E). repeat split; auto; lia.
Qed.

Lemma records_added_trans a b c k1 k2 :
  records_added a b k1 -> records_added b c k2 -> records_added a c (k1 ++ k2).
Proof.
  unfold records_added. rewrite map_app, length_app, !app_assoc.
  intros (A1 & B1 & C1 & D1 & E1) (A2 & B2 & C2 & D2 & E2).
  rewrite A2, A1, B2, B1. repeat split; lia.
Qed.

Lemma process_row_image_ok w mistral client idx detail results tr t d ip tg tr4
    image url tr5 :
  text_generated w mistral detail tr t d ip tg tr4 ->
  generate_image w client ip tr4 = (Ok (Some image, url), tr5) ->
  w_save w tr5 (image_file_name idx) = None ->
  process_row w mistral client idx detail results tr =
  (Ok (append_record results (image_file_name idx) t d tg),
   tr5 ++ [EvSave (image_file_name idx) image]).
Proof.
  intros T G S.
  rewrite (process_row_text_generated _ _ client idx _ results _ _ _ _ _ _ T).
  rewrite (bind_ok _ _ _ _ _ G). unfold store_image. cbn [fst].
  unfold bind. rewrite image_save_eq, S. reflexivity.
Qed.

(** A row that the loop body finishes either leaves the results and the
    image files as they were, or adds one record and one file. *)
Lemma process_row_ok_inv w mistral client idx detail results tr results' tr' :
  process_row w mistral client idx detail results tr = (Ok results', tr') ->
  exists t d ip tg tr4,
    text_generated w mistral detail tr t d ip tg tr4 /\
    ((results' = results /\ saved_paths tr' = saved_paths tr) \/
     (results' = append_record results (image_file_name idx) t d tg /\
      saved_paths tr' = saved_paths tr ++ [image_file_name idx])).
Proof.
  intros H.
  destruct (text_generated_or_fails w mistral detail tr)
    as [(e & tr2 & F) | (t & d & ip & tg & tr4 & T)].
  { rewrite (process_row_text_fails _ _ client idx _ results _ _ _ F) in H. discriminate. }
  exists t, d, ip, tg, tr4. split; [exact T|].
  rewrite (process_row_text_generated _ _ client idx _ results _ _ _ _ _ _ T) in H.
  apply bind_inv_ok in H as (r & te & G & S).
  apply (text_generated_trace w (fun ev => is_save ev = false)) in T
    as (evs1 & -> & F1); try reflexivity.
  apply (emits_run (fun ev => is_save ev = false)) in G as (evs2 & -> & F2);
    [|apply emits_generate_image; reflexivity].
  unfold store_image in S. destruct (fst r) as [image|].
  - right. unfold bind in S. rewrite image_save_eq in S.
    destruct (w_save w _ _); [discriminate|]. injection S as <- <-.
    split; [reflexivity|].
    rewrite !saved_paths_app, (saved_paths_quiet _ F1), (saved_paths_quiet _ F2).
    cbn. now rewrite !app_nil_r.
  - left. injection S as <- <-. split; [reflexivity|].
    rewrite !saved_paths_app, (saved_paths_quiet _ F1), (saved_paths_quiet _ F2).
    now rewrite !app_nil_r.
Qed.

Lemma subseq_refl {A} (l : list A) : subseq l l.
Proof. induction l; [apply subseq_nil|now apply subseq_take]. Qed.

Lemma subseq_nil_l {A} (l : list A) : subseq [] l.
Proof. induction l; [apply subseq_nil|now apply subseq_skip]. Qed.

Lemma subseq_app {A} (a a' b b' : list A) :
  subseq a a' -> subseq b b' -> subseq (a ++ b) (a' ++ b').
Proof.
  induction 1; intros Hb; cbn;
    [exact Hb|apply subseq_skip; auto|apply subseq_take; auto].
Qed.




(** The rows that a finished loop has recorded: some of its rows, in the
    order of the rows. *)
Lemma rows_loop_records w mistral client (rows : list (Label * string)) :
  forall results tr results' tr',
    rows_loop w mistral client rows results tr = (Ok results', tr') ->
    exists ks,
      subseq ks (map fst rows) /\
      records_added results results' ks /\
      saved_paths tr' = saved_paths tr ++ map image_file_name ks.
Proof.
  induction rows as [|[idx d] rows IH]; intros results tr results' tr' H.
  - injection H as <- <-. exists [].
    split; [constructor|].
    split; [apply records_added_refl|]. cbn. now rewrite app_nil_r.
  - cbn [rows_loop] in H.
    apply bind_inv_ok in H as (r1 & tr1 & PR & L).
    apply process_row_ok_inv in PR as (t & dd & ip & tg & tr4 & _ & PR).
    apply IH in L as (ks & Sk & Rk & Pk).
    destruct PR as [(-> & Ps) | (-> & Ps)].
    + exists ks. split; [now apply subseq_skip|]. split; [exact Rk|now rewrite Pk, Ps].
    + exists (idx :: ks). split; [|split].
      * cbn. now apply subseq_take.
      * eapply records_added_step, Rk.
      * rewrite Pk, Ps, <- app_assoc. reflexivity.
Qed.

Lemma range_index_nth (l1 : list Label) (x : Label) (l2 : list Label) (n : nat) :
  l1 ++ x :: l2 = range_index n -> x = PyStr.of_nat (List.length l1).
Proof.
  intros E.
  assert (Hn : (List.length l1 < n)%nat).
  { apply (f_equal (@List.length _)) in E.
    rewrite range_index_length, length_app in E. cbn in E. lia. }
  apply (f_equal (fun l => nth (List.length l1) l x)) in E.
  rewrite nth_middle in E. rewrite E. unfold range_index.
  rewrite (nth_indep _ x (PyStr.of_nat 0)) by now rewrite length_map, length_seq.
  rewrite map_nth, seq_nth by exact Hn. reflexivity.
Qed.

(** C9, as stated, fails twice.  The name of the image file is built from
    the index label of the row, not from its position: the input file
    with header details and the rows a,cats and a,dogs is read with the
    first field of every row as its label, and both rows are recorded and
    saved as image_a.png, none as image_0.png or image_1.png.  And a row
    whose image generation succeeds is not recorded when [image.save]
    raises: the error leaves the loop and [main], and no record and no
    table is written. *)
Lemma image_name_follows_label_and_save_may_raise :
  (exists results tr,
      rows_loop
        (Mock.table_world {| columns := ["details"];
                             df_rows := [("a", "cats"); ("a", "dogs")] |})
        (MistralAPI_init "mk") MkTogether
        (iterrows {| columns := ["details"];
                     df_rows := [("a", "cats"); ("a", "dogs")] |})
        empty_results [] = (Ok results, tr) /\
      col_file_name results = ["image_a.png"; "image_a.png"] /\
      col_local_path results = ["image_a.png"; "image_a.png"] /\
      saved_paths tr = ["image_a.png"; "image_a.png"]) /\
  fst (generate_image (Mock.full_disk_world (frame ["details"] ["cats"]))
         MkTogether "X" []) =
    Ok (Some (MkImage "https://img/X"), Some "https://img/X") /\
  fst (process_row (Mock.full_disk_world (frame ["details"] ["cats"]))
         (MistralAPI_init "mk") MkTogether "0" "cats" empty_results []) =
    Raised (OSError "No space left on device") /\
  fst (main (Mock.full_disk_world (frame ["details"] ["cats"])) []) =
    Raised (OSError "No space left on device") /\
  filter is_to_csv (snd (main (Mock.full_disk_world (frame ["details"] ["cats"])) [])) = [].
Proof.
  split.
  - eexists. eexists. split; [lazy; reflexivity|]. repeat split.
  - vm_compute. repeat split.
Qed.

(** C9, amended: a row that the loop reaches, whose text is generated,
    whose image is generated and whose [image.save] does not raise, adds
    exactly one record to the results, as their last record, with
    image_idx.png as file name and as local path, and saves the image
    under that name; [idx] is the index label of the row in the input
    table, which is the position of the row when the table has the default
    index.  The records before it are those of earlier rows, in input
    order; and when the loop over the whole input finishes, its records
    are those of some earlier rows, of this row and of some later rows, in
    input order, each with its image saved under the same name. *)
Theorem successful_row_is_recorded_in_order
    (w : World) (mistral : MistralAPI) (client : TogetherClient) (df : DataFrame)
    (pre : list (Label * string)) (idx : Label) (detail : string)
    (post : list (Label * string))
    (tr0 : Trace) (results1 : Results) (tr1 : Trace)
    (t d ip tg : string) (tr4 : Trace) (image : Image) (url : option string)
    (tr5 : Trace) :
  iterrows df = pre ++ (idx, detail) :: post ->
  rows_loop w mistral client pre empty_results tr0 = (Ok results1, tr1) ->
  text_generated w mistral detail tr1 t d ip tg tr4 ->
  generate_image w client ip tr4 = (Ok (Some image, url), tr5) ->
  w_save w tr5 ("image_" ++ idx ++ ".png")%string = None ->
  (index df = range_index (List.length (iterrows df)) ->
   idx = PyStr.of_nat (List.length pre)) /\
  process_row w mistral client idx detail results1 tr1 =
    (Ok (append_record results1 ("image_" ++ idx ++ ".png")%string t d tg),
     tr5 ++ [EvSave ("image_" ++ idx ++ ".png")%string image]) /\
  rows_loop w mistral client (pre ++ [(idx, detail)]) empty_results tr0 =
    (Ok (append_record results1 ("image_" ++ idx ++ ".png")%string t d tg),
     tr5 ++ [EvSave ("image_" ++ idx ++ ".png")%string image]) /\
  (exists ks,
      subseq ks (map fst pre) /\
      records_added empty_results results1 ks /\
      saved_paths (tr5 ++ [EvSave ("image_" ++ idx ++ ".png")%string image]) =
        saved_paths tr0 ++ map (fun k => "image_" ++ k ++ ".png")%string (ks ++ [idx])) /\
  (forall results tr',
      rows_loop w mistral client (iterrows df) empty_results tr0 = (Ok results, tr') ->
      exists ks1 ks2,
        subseq ks1 (map fst pre) /\
        subseq ks2 (map fst post) /\
        records_added empty_results results (ks1 ++ idx :: ks2) /\
        saved_paths tr' =
          saved_paths tr0 ++ map (fun k => "image_" ++ k ++ ".png")%string (ks1 ++ idx :: ks2)).
Proof.
  intros D L T G S.
  assert (PR := process_row_image_ok w mistral client idx detail results1
                  tr1 t d ip tg tr4 image url tr5 T G S).
  assert (P5 : saved_paths (tr5 ++ [EvSave (image_file_name idx) image])
               = saved_paths tr1 ++ [image_file_name idx]).
  { apply (text_generated_trace w (fun ev => is_save ev = false)) in T
      as (evs1 & -> & E1); try reflexivity.
    apply (emits_run (fun ev => is_save ev = false)) in G as (evs2 & -> & E2);
      [|apply emits_generate_image; reflexivity].
    rewrite !saved_paths_app, (saved_paths_quiet _ E1), (saved_paths_quiet _ E2).
    cbn. now rewrite !app_nil_r. }
  pose proof (rows_loop_records _ _ _ _ _ _ _ _ L) as (ks1 & S1 & R1 & P1).
  split; [|split; [exact PR|split; [|split]]].
  - intros I. unfold index, iterrows in I. unfold iterrows in D.
    rewrite D, map_app in I. cbn [map fst] in I.
    apply range_index_nth in I. now rewrite length_map in I.
  - rewrite rows_loop_app, (bind_ok _ _ _ _ _ L). cbn [rows_loop].
    rewrite (bind_ok _ _ _ _ _ PR). reflexivity.
  - exists ks1. split; [exact S1|]. split; [exact R1|].
    fold (image_file_name idx). rewrite P5, P1, map_app, <- app_assoc. reflexivity.
  - intros results tr' B.
    rewrite D, rows_loop_app in B.
    rewrite (bind_ok _ _ _ _ _ L) in B. cbn [rows_loop] in B.
    rewrite (bind_ok _ _ _ _ _ PR) in B.
    apply rows_loop_records in B as (ks2 & S2 & R2 & P2).
    exists ks1, ks2. split; [exact S1|]. split; [exact S2|]. split.
    + apply records_added_trans with results1; [exact R1|].
      eapply records_added_step, R2.
    + fold (image_file_name idx) in P2. rewrite P2, P5, P1, map_app. cbn [map].
      rewrite <- !app_assoc. reflexivity.
Qed.

Lemma successful_row_is_recorded_in_order_witness :
  exists results1 t d tg tr5 image,
    rows_loop (Mock.constant_world (Mock.ok "X") ["cats"; "dogs"] (fun _ => true))
      (MistralAPI_init "mk") MkTogether
      ([("0", "cats")] ++ [("1", "dogs")])
      empty_results [EvTogether; EvReadCsv "input.csv"] =
    (Ok (append_record results1 "image_1.png" t d tg),
     tr5 ++ [EvSave "image_1.png" image]) /\
    "1" = PyStr.of_nat (List.length [("0", "cats")]).
Proof.
  edestruct (successful_row_is_recorded_in_order
               (Mock.constant_world (Mock.ok "X") ["cats"; "dogs"] (fun _ => true))
               (MistralAPI_init "mk") MkTogether
               (frame ["details"] ["cats"; "dogs"])
               [("0", "cats")] "1" "dogs" [] [EvTogether; EvReadCsv "input.csv"])
    as (I & _ & B & _).
  - reflexivity.
  - lazy. reflexivity.
  - eapply text_generated_intro; lazy; reflexivity.
  - lazy. reflexivity.
  - reflexivity.
  - do 6 eexists. split; [exact B|]. apply I. reflexivity.
Defined.

(** ** The description *)

Lemma ends_with_append (a b : string) : ends_with (a ++ b)%string b.
Proof. now exists a. Qed.

Lemma rows_loop_descriptions w mistral client rows :
  forall results tr results' tr',
    rows_loop w mistral client rows results tr = (Ok results', tr') ->
    Forall (fun d => ends_with d _get_template_description) (col_description results) ->
    Forall (fun d => ends_with d _get_template_description) (col_description results').
Proof.
  induction rows as [|[idx detail] rest IH]; intros results tr results' tr' H F.
  - injection H as <- <-. exact F.
  - cbn [rows_loop] in H. apply bind_inv_ok in H as (r1 & tr1 & PR & L).
    apply (IH _ _ _ _ L).
    apply process_row_ok_inv in PR as (t & d & ip & tg & tr4 & T & [(-> & _) | (-> & _)]);
      [exact F|].
    cbn. apply Forall_app. split; [exact F|]. constructor; [|constructor].
    destruct T as [t ta d tb ip tc tg td _ H2 _ _].
    apply generate_description_inv in H2 as (p & out & _ & ->).
    apply ends_with_append.
Qed.

(** C6: a description returned by [generate_description] is what
    [_make_request] returned for the description prompt, with its double
    quotes removed and the fixed HTML template appended; so it ends with
    the template, and so does the description of every record in the
    results of the loop over the rows. *)
Theorem description_ends_with_template
    (w : World) (mistral : MistralAPI) (client : TogetherClient)
    (detail title : string) (tr : Trace) (d : string) (tr1 : Trace)
    (rows : list (Label * string)) (tr2 : Trace) (results : Results) (tr3 : Trace) :
  generate_description w mistral detail title tr = (Ok d, tr1) ->
  rows_loop w mistral client rows empty_results tr2 = (Ok results, tr3) ->
  (exists prompt out,
      _make_request w mistral prompt (tr ++ [EvPrint MsgGeneratingDescription])
        = (Ok (Some out), tr1) /\
      d = (PyStr.replace_quote out ++ _get_template_description)%string) /\
  ends_with d _get_template_description /\
  Forall (fun d' => ends_with d' _get_template_description) (col_description results).
Proof.
  intros G L.
  apply generate_description_inv in G as (p & out & E & ->).
  split; [now exists p, out|]. split; [apply ends_with_append|].
  apply (rows_loop_descriptions _ _ _ _ _ _ _ _ L). constructor.
Qed.

Lemma description_ends_with_template_witness :
  exists d results,
    ends_with d _get_template_description /\
    Forall (fun d' => ends_with d' _get_template_description) (col_description results) /\
    col_file_name results = ["image_0.png"] /\
    col_description results = [d].
Proof.
  edestruct (fun d tr1 =>
               description_ends_with_template
                 (Mock.constant_world (Mock.ok "X") ["cats"] (fun _ => true))
                 (MistralAPI_init "mk") MkTogether "cats" "X" [] d tr1
                 [("0", "cats")] [])
    as (_ & E & F).
  - lazy. reflexivity.
  - lazy. reflexivity.
  - eexists. eexists. split; [exact E|]. split; [exact F|]. split; reflexivity.
Defined.

(** ** Credentials *)

(** C10: [main] looks for MISTRAL_API_KEY first of all and raises when it
    is absent (or empty); the key of the image service is looked for by
    the constructor of the Together client, which [main] calls next and
    which (as the SDK does) raises when TOGETHER_API_KEY is absent.  So
    when either variable is absent [main] raises at once: nothing has
    happened yet but, at most, the call of the constructor; the input has
    not been read and no row has been processed. *)
Theorem missing_credential_fails_fast (w : World) :
  (getenv w "TOGETHER_API_KEY" = None -> w_Together w <> None) ->
  falsy (getenv w "MISTRAL_API_KEY") = true \/ getenv w "TOGETHER_API_KEY" = None ->
  exists e tr,
    main w [] = (Raised e, tr) /\
    (tr = [] \/ tr = [EvTogether]).
Proof.
  intros SDK H. unfold main.
  destruct (falsy (getenv w "MISTRAL_API_KEY")) eqn:M.
  - exists (ValueError "MISTRAL_API_KEY environment variable is not set"), [].
    split; [reflexivity|now left].
  - destruct H as [H|H]; [discriminate|].
    specialize (SDK H). destruct (w_Together w) as [e|] eqn:T; [|congruence].
    exists e, [EvTogether]. split; [|now right].
    apply bind_raised. rewrite Together_eq, T. reflexivity.
Qed.

Lemma missing_credential_fails_fast_witness :
  (exists e tr,
      main (Mock.env_world None (Some "tk")) [] = (Raised e, tr) /\
      (tr = [] \/ tr = [EvTogether])) /\
  (exists e tr,
      main (Mock.env_world (Some "mk") None) [] = (Raised e, tr) /\
      (tr = [] \/ tr = [EvTogether])).
Proof.
  split.
  - apply (missing_credential_fails_fast (Mock.env_world None (Some "tk"))).
    + intros H. discriminate H.
    + left. reflexivity.
  - apply (missing_credential_fails_fast (Mock.env_world (Some "mk") None)).
    + intros _. discriminate.
    + right. reflexivity.
Defined.

(** * Further properties of the retry loop *)

Section MakeRequestMore.

Variable w : World.
Variable self : MistralAPI.
Variable prompt : string.

Lemma try_body_answers attempt tr c :
  answers (w_post w tr prompt) c ->
  try_body w self prompt attempt tr =
  (Ok (FlowReturn (PyStr.strip c)), tr ++ [post_event self prompt]).
Proof.
  intros (r & E & N & R & C).
  unfold try_body, bind at 1. rewrite requests_post_eq, E.
  apply Z.eqb_neq in N. rewrite N.
  unfold bind, raise_for_status, json_content_strip.
  replace ((400 <=? status_code r) && (status_code r <? 600)) with false.
  - cbn. rewrite C. reflexivity.
  - symmetry; apply andb_false_iff.
    destruct (Z.leb_spec 400 (status_code r)); [right|left; reflexivity].
    apply Z.ltb_ge; lia.
Qed.

Lemma try_body_return_inv attempt tr s tr' :
  try_body w self prompt attempt tr = (Ok (FlowReturn s), tr') ->
  tr' = tr ++ [post_event self prompt] /\
  exists c, answers (w_post w tr prompt) c /\ s = PyStr.strip c.
Proof.
  unfold try_body, bind at 1. rewrite requests_post_eq.
  destruct (w_post w tr prompt) as [e|r]; [discriminate|].
  destruct (status_code r =? 429) eqn:S.
  - intros H.
    apply bind_inv_ok in H as (n & t1 & _ & H).
    apply bind_inv_ok in H as (u1 & t2 & _ & H).
    apply bind_inv_ok in H as (u2 & t3 & _ & H).
    discriminate.
  - intros H.
    apply bind_inv_ok in H as (u & t1 & H1 & H).
    apply bind_inv_ok in H as (s0 & t2 & H2 & H).
    unfold raise_for_status in H1.
    destruct ((400 <=? status_code r) && (status_code r <? 600)) eqn:B; [discriminate|].
    unfold json_content_strip in H2. destruct (content r) as [c|] eqn:C; [|discriminate].
    unfold ret in H, H1, H2. inversion H1; subst. inversion H2; subst.
    inversion H; subst. clear H H1 H2.
    split; [reflexivity|]. exists c. split; [|reflexivity].
    exists r. repeat split; auto.
    + now apply Z.eqb_neq.
    + intros [L U]. apply andb_false_iff in B as [B|B].
      * apply Z.leb_gt in B. lia.
      * apply Z.ltb_ge in B. lia.
Qed.

Lemma attempts_loop_some_inv attempts :
  forall tr s tr',
    attempts_loop w self prompt attempts tr = (Ok (Some s), tr') ->
    exists tr0 c,
      tr' = tr0 ++ [post_event self prompt] /\
      answers (w_post w tr0 prompt) c /\ s = PyStr.strip c.
Proof.
  induction attempts as [|attempt rest IH]; intros tr s tr' H; [discriminate|].
  cbn [attempts_loop] in H. unfold try_except in H.
  destruct (try_body w self prompt attempt tr) as [[[|s0]|e] tr1] eqn:T.
  - now apply IH in H.
  - injection H as <- <-. apply try_body_return_inv in T as (-> & c & A & ->).
    now exists tr, c.
  - destruct (Z.of_nat attempt <? Z.of_nat (max_retries self) - 1); [|discriminate].
    apply bind_inv_ok in H as (u1 & t1 & _ & H).
    apply bind_inv_ok in H as (u2 & t2 & _ & H).
    now apply IH in H.
Qed.

Lemma attempts_loop_gives_up :
  can_sleep w (retry_delay self) ->
  forall k a tr o tr',
    (a + k = max_retries self)%nat ->
    attempts_loop w self prompt (seq a k) tr = (o, tr') ->
    (forall s, o <> Ok (Some s)) ->
    count_posts tr' = (count_posts tr + k)%nat.
Proof.
  intros D. induction k as [|k IH]; intros a tr o tr' E H G.
  - injection H as <- <-. lia.
  - cbn [seq attempts_loop] in H. unfold try_except in H.
    destruct (try_body_trace w (fun ev => is_post ev = false)
                ltac:(reflexivity) ltac:(reflexivity) self prompt a tr)
      as (evs & Et & F).
    assert (C := count_posts_after_post tr (post_event self prompt) evs eq_refl F).
    destruct (try_body w self prompt a tr) as [[[|s0]|e] tr1]; cbn [snd] in Et; subst tr1.
    + apply IH in H; [lia|lia|exact G].
    + injection H as <- <-. now destruct (G s0).
    + destruct (Z.ltb_spec (Z.of_nat a) (Z.of_nat (max_retries self) - 1)) as [L|L].
      * rewrite bind_print in H. unfold bind in H.
        rewrite (time_sleep_ok w _ _ D) in H. apply IH in H; [|lia|exact G].
        rewrite H, 2!count_posts_app.
        change (count_posts [EvPrint (MsgRetrying e (retry_delay self))]) with 0%nat.
        change (count_posts [EvSleep (retry_delay self)]) with 0%nat. lia.
      * injection H as <- <-. rewrite C. lia.
Qed.

(** The loop starts with a request whenever it has an iteration to run. *)
Lemma attempts_loop_cons_trace attempt rest tr :
  exists evs,
    snd (attempts_loop w self prompt (attempt :: rest) tr)
    = tr ++ post_event self prompt :: evs.
Proof.
  assert (K : emits (fun _ => True) (attempts_loop w self prompt rest))
    by (apply emits_attempts_loop; auto).
  cbn [attempts_loop]. unfold try_except.
  destruct (try_body_trace w (fun _ => True) (fun _ => I) (fun _ => I)
              self prompt attempt tr) as (evs & E & _).
  destruct (try_body w self prompt attempt tr) as [[[|s0]|e] tr1]; cbn [snd] in E; subst tr1.
  - destruct (K (tr ++ post_event self prompt :: evs)) as (evs2 & E2 & _).
    exists (evs ++ evs2). rewrite E2, <- app_assoc. reflexivity.
  - exists evs. reflexivity.
  - destruct (Z.of_nat attempt <? Z.of_nat (max_retries self) - 1); [|now exists evs].
    assert (Kh : emits (fun _ => True)
                   (bind (print (MsgRetrying e (retry_delay self)))
                      (fun _ => bind (time_sleep w (retry_delay self))
                                  (fun _ => attempts_loop w self prompt rest)))).
    { apply emits_bind; [apply emits_print; auto|intros _].
      apply emits_bind; [apply emits_time_sleep; auto|intros _]. exact K. }
    destruct (Kh (tr ++ post_event self prompt :: evs)) as (evs2 & E2 & _).
    exists (evs ++ evs2). rewrite E2, <- app_assoc. reflexivity.
Qed.

End MakeRequestMore.

Lemma make_request_some_posts
    (w : World) (self : MistralAPI) (prompt : string) (tr : Trace)
    (s : string) (tr' : Trace) :
  _make_request w self prompt tr = (Ok (Some s), tr') ->
  (count_posts tr + 1 <= count_posts tr' <= count_posts tr + max_retries self)%nat.
Proof.
  intros H0.
  pose proof (attempts_loop_posts w self prompt (seq 0 (max_retries self)) tr) as B.
  unfold _make_request in H0. rewrite H0, length_seq in B. cbn [snd] in B.
  split; [|exact B].
  destruct (max_retries self) as [|n]; [discriminate|].
  cbn [seq] in H0.
  destruct (attempts_loop_cons_trace w self prompt 0%nat (seq 1 n) tr) as (evs & E).
  rewrite H0 in E. cbn [snd] in E. rewrite E.
  change (post_event self prompt :: evs) with ([post_event self prompt] ++ evs).
  rewrite 2!count_posts_app.
  change (count_posts [post_event self prompt]) with 1%nat. lia.
Qed.

(** X1: a string returned by [_make_request] is always the stripped content
    of the answer to the last request it sent, that answer being neither a
    429 nor an error status; nothing is sent, slept or printed after it,
    and between one and [max_retries] requests were sent. *)
Theorem make_request_returns_last_answer
    (w : World) (self : MistralAPI) (prompt : string) (tr : Trace)
    (s : string) (tr' : Trace) :
  _make_request w self prompt tr = (Ok (Some s), tr') ->
  (exists tr0 c,
      tr' = tr0 ++ [post_event self prompt] /\
      answers (w_post w tr0 prompt) c /\ s = PyStr.strip c) /\
  (count_posts tr + 1 <= count_posts tr' <= count_posts tr + max_retries self)%nat.
Proof.
  intros H. pose proof H as H0.
  apply attempts_loop_some_inv in H as (tr0 & c & -> & A & ->).
  split; [now exists tr0, c|].
  exact (make_request_some_posts w self prompt tr _ _ H0).
Qed.

Lemma make_request_returns_last_answer_witness :
  (exists tr0 c,
      [post_event (MistralAPI_init "mk") "p"; EvPrint (MsgRateLimited 2); EvSleep 2;
       post_event (MistralAPI_init "mk") "p"]
      = tr0 ++ [post_event (MistralAPI_init "mk") "p"] /\
      answers (w_post (Mock.world [Mock.rate_limited None; Mock.ok " X "] []
                         (fun _ => true)) tr0 "p") c /\
      "X" = PyStr.strip c) /\
  (count_posts [] + 1
   <= count_posts [post_event (MistralAPI_init "mk") "p"; EvPrint (MsgRateLimited 2);
                   EvSleep 2; post_event (MistralAPI_init "mk") "p"]
   <= count_posts [] + max_retries (MistralAPI_init "mk"))%nat.
Proof.
  apply (make_request_returns_last_answer
           (Mock.world [Mock.rate_limited None; Mock.ok " X "] [] (fun _ => true))
           (MistralAPI_init "mk") "p" [] "X").
  reflexivity.
Defined.

(** A delay that [time.sleep] refuses ends the call at its first failure:
    the [OverflowError] is raised inside the [except] branch, where nothing
    catches it, after one request. *)
Lemma unsleepable_delay_leaves_at_once :
  _make_request
    (Mock.constant_world (PostRaised (ConnectionError "down")) [] (fun _ => true))
    {| api_key := "mk"; base_url := "https://api.mistral.ai/v1/chat/completions";
       max_retries := 3; retry_delay := 10000000000; timeout := 30 |}
    "p" [] =
  (Raised (OverflowError "timestamp too large to convert to C _PyTime_t"),
   [EvPost "https://api.mistral.ai/v1/chat/completions" "mk" "p" 30;
    EvPrint (MsgRetrying (ConnectionError "down") 10000000000)]).
Proof. vm_compute. reflexivity. Qed.

(** X2: [_make_request] never gives up early: when it raises, or returns
    [None], it has sent exactly [max_retries] requests, provided
    [time.sleep] sleeps the fixed delay (a [time.sleep] that raises in the
    [except] branch leaves the function at once). *)
Theorem make_request_gives_up_after_all_attempts
    (w : World) (self : MistralAPI) (prompt : string) (tr : Trace)
    (o : Outcome (option string)) (tr' : Trace) :
  can_sleep w (retry_delay self) ->
  _make_request w self prompt tr = (o, tr') ->
  (forall s, o <> Ok (Some s)) ->
  count_posts tr' = (count_posts tr + max_retries self)%nat.
Proof.
  intros D H G.
  apply (attempts_loop_gives_up w self prompt D (max_retries self) 0%nat tr o tr');
    [reflexivity|exact H|exact G].
Qed.

Lemma make_request_gives_up_after_all_attempts_witness :
  count_posts
    (snd (_make_request
            (Mock.world [Mock.rate_limited None; PostRaised (ConnectionError "down");
                         Mock.rate_limited (Some "x")] [] (fun _ => true))
            (MistralAPI_init "mk") "p" []))
  = (count_posts [] + max_retries (MistralAPI_init "mk"))%nat.
Proof.
  apply (make_request_gives_up_after_all_attempts
           (Mock.world [Mock.rate_limited None; PostRaised (ConnectionError "down");
                        Mock.rate_limited (Some "x")] [] (fun _ => true))
           (MistralAPI_init "mk") "p" []
           (Raised (ValueError "invalid literal for int() with base 10"))).
  - apply can_sleep_short. simpl. lia.
  - reflexivity.
  - intros s. discriminate.
Defined.

Lemma make_request_answers
    (w : World) (self : MistralAPI) (prompt : string) (tr : Trace) (c : string) :
  (0 < max_retries self)%nat ->
  answers (w_post w tr prompt) c ->
  _make_request w self prompt tr =
  (Ok (Some (PyStr.strip c)), tr ++ [post_event self prompt]).
Proof.
  intros N A. unfold _make_request.
  destruct (max_retries self) as [|n]; [lia|]. cbn [seq attempts_loop].
  unfold try_except. rewrite (try_body_answers w self prompt 0 tr c A). reflexivity.
Qed.

(** X3: a good first answer is returned at once: one request, no sleep,
    and the result is the stripped content. *)
Theorem make_request_first_answer
    (w : World) (self : MistralAPI) (prompt : string) (tr : Trace) (c : string) :
  (0 < max_retries self)%nat ->
  answers (w_post w tr prompt) c ->
  _make_request w self prompt tr =
  (Ok (Some (PyStr.strip c)), tr ++ [post_event self prompt]).
Proof. exact (make_request_answers w self prompt tr c). Qed.

Lemma make_request_first_answer_witness :
  _make_request (Mock.constant_world (Mock.ok "  X y ") [] (fun _ => true))
    (MistralAPI_init "mk") "p" [] =
  (Ok (Some (PyStr.strip "  X y ")), [] ++ [post_event (MistralAPI_init "mk") "p"]).
Proof.
  apply (make_request_first_answer
           (Mock.constant_world (Mock.ok "  X y ") [] (fun _ => true))
           (MistralAPI_init "mk") "p" [] "  X y ").
  - simpl. lia.
  - exists {| status_code := 200; retry_after := None; content := Some "  X y " |}.
    simpl. repeat split; try reflexivity; lia.
Defined.

(** X4: a failure that does not repeat is recovered from: when the first
    request fails (other than by a rate limit) and the second gets a good
    answer, [_make_request] sleeps [retry_delay] once and returns the
    stripped content of the second answer, provided two attempts are
    allowed and [time.sleep] sleeps the delay. *)
Theorem make_request_recovers_from_one_failure
    (w : World) (self : MistralAPI) (prompt : string) (tr : Trace)
    (e : Exn) (c : string) :
  (2 <= max_retries self)%nat ->
  can_sleep w (retry_delay self) ->
  non429_failure (w_post w tr prompt) e ->
  answers
    (w_post w (tr ++ [post_event self prompt; EvPrint (MsgRetrying e (retry_delay self));
                      EvSleep (retry_delay self)]) prompt) c ->
  _make_request w self prompt tr =
  (Ok (Some (PyStr.strip c)),
   tr ++ [post_event self prompt; EvPrint (MsgRetrying e (retry_delay self));
          EvSleep (retry_delay self); post_event self prompt]).
Proof.
  intros N D F A. unfold _make_request.
  destruct (max_retries self) as [|[|n]] eqn:M; [lia|lia|]. cbn [seq].
  rewrite (attempts_loop_retry w self prompt 0 _ tr e _
             (try_body_failure w self prompt 0 tr e F)); [|rewrite M; lia|exact D].
  rewrite <- app_assoc. cbn [app attempts_loop]. unfold try_except.
  rewrite (try_body_answers w self prompt 1 _ c A).
  rewrite <- app_assoc. reflexivity.
Qed.

Lemma make_request_recovers_from_one_failure_witness :
  _make_request
    (Mock.world [PostRaised (ConnectionError "down"); Mock.ok "X"] [] (fun _ => true))
    (MistralAPI_init "mk") "p" [] =
  (Ok (Some (PyStr.strip "X")),
   [] ++ [post_event (MistralAPI_init "mk") "p";
          EvPrint (MsgRetrying (ConnectionError "down") (retry_delay (MistralAPI_init "mk")));
          EvSleep (retry_delay (MistralAPI_init "mk"));
          post_event (MistralAPI_init "mk") "p"]).
Proof.
  apply (make_request_recovers_from_one_failure
           (Mock.world [PostRaised (ConnectionError "down"); Mock.ok "X"] []
              (fun _ => true))
           (MistralAPI_init "mk") "p" [] (ConnectionError "down") "X").
  - simpl. lia.
  - apply can_sleep_short. simpl. lia.
  - simpl. constructor.
  - exists {| status_code := 200; retry_after := None; content := Some "X" |}.
    simpl. repeat split; try reflexivity; lia.
Defined.

(** * Further properties of generate_image *)

Lemma generate_image_try_ok_inv w client prompt tr r tr' :
  generate_image_try w client prompt tr = (Ok r, tr') ->
  exists us bytes,
    w_images_generate w tr prompt = inr (snd r :: us) /\
    w_get w (tr ++ [EvImagesGenerate prompt; EvPrint (MsgImageURL (snd r))]) (snd r)
      = inr bytes /\
    w_image_open w bytes = inr (fst r) /\
    tr' = tr ++ [EvImagesGenerate prompt; EvPrint (MsgImageURL (snd r)); EvGet (snd r)].
Proof.
  unfold generate_image_try, bind, history, emit, lift, print, emit.
  destruct (w_images_generate w tr prompt) as [e|[|u us]]; cbn; try discriminate.
  rewrite <- !app_assoc. cbn.
  destruct (w_get w _ u) as [e|b] eqn:G; cbn; [discriminate|].
  destruct (w_image_open w b) as [e|i] eqn:O; cbn; [discriminate|].
  intros H. inversion H; subst. cbn. exists us, b. auto.
Qed.

(** X5: [generate_image] never raises, whatever the image service and the
    fetch do.  It returns either [(None, None)] or an image together with
    its URL; in the second case the URL is the first of the answer of the
    service, and the image is the decoding of the bytes fetched from it. *)
Theorem generate_image_never_raises
    (w : World) (client : TogetherClient) (prompt : string) (tr : Trace) :
  exists r tr',
    generate_image w client prompt tr = (Ok r, tr') /\
    (r = (None, None) \/
     exists image url us bytes,
       r = (Some image, Some url) /\
       w_images_generate w (tr ++ [EvPrint MsgGeneratingImage]) prompt = inr (url :: us) /\
       w_get w (tr ++ [EvPrint MsgGeneratingImage; EvImagesGenerate prompt;
                       EvPrint (MsgImageURL url)]) url = inr bytes /\
       w_image_open w bytes = inr image).
Proof.
  rewrite generate_image_eq.
  destruct (generate_image_try w client prompt (tr ++ [EvPrint MsgGeneratingImage]))
    as [[r|e] tr1] eqn:T.
  - apply generate_image_try_ok_inv in T as (us & b & G & F & O & _).
    rewrite <- app_assoc in F. cbn in F.
    exists (Some (fst r), Some (snd r)), tr1. split; [reflexivity|].
    right. exists (fst r), (snd r), us, b. auto.
  - exists (None, None), (tr1 ++ [EvPrint (MsgImageError e)]). auto.
Qed.

(** * Further properties of main *)

(** X6: an error of [pd.read_csv] is fatal before any request is made: a
    missing file is raised again as a [FileNotFoundError] with the message
    of the script, an empty file as a [ValueError], and any other error as
    it is; all that has happened is the construction of the client and the
    attempt to read. *)
Theorem input_read_error_is_fatal
    (w : World) (key : string) (e : Exn) :
  getenv w "MISTRAL_API_KEY" = Some key ->
  key <> EmptyString ->
  w_Together w = None ->
  w_read_csv w = inl e ->
  main w [] =
  (Raised match e with
          | FileNotFoundError _ => FileNotFoundError "input.csv not found in current directory"
          | EmptyDataError => ValueError "input.csv is empty"
          | _ => e
          end,
   [EvTogether; EvReadCsv "input.csv"]).
Proof.
  intros K N T R. unfold main. rewrite K. cbn [falsy].
  apply String.eqb_neq in N. rewrite N.
  assert (HT : Together w [] = (Ok MkTogether, [EvTogether])).
  { rewrite Together_eq, T. reflexivity. }
  rewrite (bind_ok _ _ _ _ _ HT). apply bind_raised.
  unfold read_input, bind, emit. rewrite R. destruct e; reflexivity.
Qed.

Lemma input_read_error_is_fatal_witness :
  main {| getenv := Mock.env (Some "mk") (Some "tk");
          w_Together := None;
          w_read_csv := inl (FileNotFoundError "No such file or directory: 'input.csv'");
          w_post := fun _ _ => Mock.ok "X";
          w_images_generate := fun _ _ => inr [];
          w_get := fun _ u => inr u;
          w_image_open := fun b => inr (MkImage b);
          w_save := fun _ _ => None;
          w_to_csv := fun _ => None;
          w_sleep := fun _ _ => None |} [] =
  (Raised (FileNotFoundError "input.csv not found in current directory"),
   [EvTogether; EvReadCsv "input.csv"]).
Proof.
  apply (input_read_error_is_fatal
           {| getenv := Mock.env (Some "mk") (Some "tk");
              w_Together := None;
              w_read_csv := inl (FileNotFoundError "No such file or directory: 'input.csv'");
              w_post := fun _ _ => Mock.ok "X";
              w_images_generate := fun _ _ => inr [];
              w_get := fun _ u => inr u;
              w_image_open := fun b => inr (MkImage b);
              w_save := fun _ _ => None;
              w_to_csv := fun _ => None;
              w_sleep := fun _ _ => None |}
           "mk" (FileNotFoundError "No such file or directory: 'input.csv'")).
  - reflexivity.
  - discriminate.
  - reflexivity.
  - reflexivity.
Defined.

(** X7: an input table without a column named details is fatal before any
    request is made: [main] raises a [ValueError] right after reading. *)
Theorem missing_details_column_is_fatal
    (w : World) (key : string) (df : DataFrame) :
  getenv w "MISTRAL_API_KEY" = Some key ->
  key <> EmptyString ->
  w_Together w = None ->
  w_read_csv w = inr df ->
  existsb (String.eqb "details") (columns df) = false ->
  main w [] =
  (Raised (ValueError "input.csv must contain a 'details' column"),
   [EvTogether; EvReadCsv "input.csv"]).
Proof.
  intros K N T R C. unfold main. rewrite K. cbn [falsy].
  apply String.eqb_neq in N. rewrite N.
  assert (HT : Together w [] = (Ok MkTogether, [EvTogether])).
  { rewrite Together_eq, T. reflexivity. }
  rewrite (bind_ok _ _ _ _ _ HT).
  rewrite (bind_ok _ _ _ _ _ (read_input_ok w df [EvTogether] R)).
  rewrite C. reflexivity.
Qed.

Lemma missing_details_column_is_fatal_witness :
  main {| getenv := Mock.env (Some "mk") (Some "tk");
          w_Together := None;
          w_read_csv := inr (frame ["theme"; "Details"] []);
          w_post := fun _ _ => Mock.ok "X";
          w_images_generate := fun _ _ => inr [];
          w_get := fun _ u => inr u;
          w_image_open := fun b => inr (MkImage b);
          w_save := fun _ _ => None;
          w_to_csv := fun _ => None;
          w_sleep := fun _ _ => None |} [] =
  (Raised (ValueError "input.csv must contain a 'details' column"),
   [EvTogether; EvReadCsv "input.csv"]).
Proof.
  apply (missing_details_column_is_fatal
           {| getenv := Mock.env (Some "mk") (Some "tk");
              w_Together := None;
              w_read_csv := inr (frame ["theme"; "Details"] []);
              w_post := fun _ _ => Mock.ok "X";
              w_images_generate := fun _ _ => inr [];
              w_get := fun _ u => inr u;
              w_image_open := fun b => inr (MkImage b);
              w_save := fun _ _ => None;
              w_to_csv := fun _ => None;
              w_sleep := fun _ _ => None |}
           "mk" (frame ["theme"; "Details"] [])).
  - reflexivity.
  - discriminate.
  - reflexivity.
  - reflexivity.
  - reflexivity.
Defined.

Lemma to_csv_eq (w : World) results tr :
  to_csv w results tr =
  match w_to_csv w tr with
  | Some e => (Raised e, tr ++ [EvToCsv "product_information.csv" results])
  | None => (Ok tt, tr ++ [EvToCsv "product_information.csv" results])
  end.
Proof. unfold to_csv, bind, history, emit. destruct (w_to_csv w tr); reflexivity. Qed.

(** X8: [main] returns normally only when the key is set, the client is
    constructed, the input is read and has its column, the loop over the
    rows finishes and the table is written; the table is then written
    exactly once, after the last row, with the results of the loop, and
    the closing message is the last thing that happens. *)
Theorem main_returns_after_writing_table_once (w : World) (tr : Trace) :
  main w [] = (Ok tt, tr) ->
  exists key df results tr1,
    getenv w "MISTRAL_API_KEY" = Some key /\ key <> EmptyString /\
    w_Together w = None /\
    w_read_csv w = inr df /\
    existsb (String.eqb "details") (columns df) = true /\
    rows_loop w (MistralAPI_init key) MkTogether (iterrows df) empty_results
      [EvTogether; EvReadCsv "input.csv"] = (Ok results, tr1) /\
    tr = tr1 ++ [EvToCsv "product_information.csv" results; EvPrint MsgResultsSaved] /\
    filter is_to_csv tr1 = [].
Proof.
  unfold main. intros H.
  destruct (getenv w "MISTRAL_API_KEY") as [key|] eqn:K; cbn [falsy] in H; [|discriminate].
  destruct (String.eqb_spec key EmptyString) as [->|N]; [discriminate|].
  apply bind_inv_ok in H as (c & t1 & HT & H).
  rewrite Together_eq in HT. destruct (w_Together w) eqn:T; [discriminate|].
  inversion HT; subst; clear HT.
  apply bind_inv_ok in H as (df & t2 & HR & H).
  unfold read_input, bind, emit in HR.
  destruct (w_read_csv w) as [e|df0] eqn:R; [destruct e; discriminate|].
  inversion HR; subst; clear HR.
  destruct (existsb (String.eqb "details") (columns df)) eqn:C; [|discriminate].
  cbn [negb] in H.
  apply bind_inv_ok in H as (results & tr1 & L & H).
  apply bind_inv_ok in H as (u & t3 & W & H).
  rewrite to_csv_eq in W. destruct (w_to_csv w tr1); [discriminate|].
  inversion W; subst; clear W.
  unfold print, emit in H. inversion H; subst; clear H.
  exists key, df, results, tr1. repeat split; auto.
  - now rewrite <- app_assoc.
  - apply (emits_run (fun ev => is_to_csv ev = false)) in L as (evs & -> & F);
      [|apply emits_rows_loop; reflexivity].
    now rewrite filter_app, (filter_quiet _ _ F).
Qed.

Lemma main_returns_after_writing_table_once_witness :
  exists key df results tr1,
    getenv (Mock.constant_world (Mock.ok "X") ["cats"] (fun _ => false))
      "MISTRAL_API_KEY" = Some key /\ key <> EmptyString /\
    w_Together (Mock.constant_world (Mock.ok "X") ["cats"] (fun _ => false)) = None /\
    w_read_csv (Mock.constant_world (Mock.ok "X") ["cats"] (fun _ => false)) = inr df /\
    existsb (String.eqb "details") (columns df) = true /\
    rows_loop (Mock.constant_world (Mock.ok "X") ["cats"] (fun _ => false))
      (MistralAPI_init key) MkTogether (iterrows df) empty_results
      [EvTogether; EvReadCsv "input.csv"] = (Ok results, tr1) /\
    snd (main (Mock.constant_world (Mock.ok "X") ["cats"] (fun _ => false)) [])
    = tr1 ++ [EvToCsv "product_information.csv" results; EvPrint MsgResultsSaved] /\
    filter is_to_csv tr1 = [].
Proof.
  apply (main_returns_after_writing_table_once
           (Mock.constant_world (Mock.ok "X") ["cats"] (fun _ => false))).
  vm_compute. reflexivity.
Defined.

(** X9: when writing the table fails, [main] raises that error and the
    closing message is never printed. *)
Theorem table_write_error_is_raised
    (w : World) (key : string) (df : DataFrame)
    (results : Results) (tr1 : Trace) (e : Exn) :
  getenv w "MISTRAL_API_KEY" = Some key ->
  key <> EmptyString ->
  w_Together w = None ->
  w_read_csv w = inr df ->
  existsb (String.eqb "details") (columns df) = true ->
  rows_loop w (MistralAPI_init key) MkTogether (iterrows df) empty_results
    [EvTogether; EvReadCsv "input.csv"] = (Ok results, tr1) ->
  w_to_csv w tr1 = Some e ->
  main w [] = (Raised e, tr1 ++ [EvToCsv "product_information.csv" results]).
Proof.
  intros K N T R C L W.
  rewrite (main_reaches_loop w key df K N T R C).
  rewrite (bind_ok _ _ _ _ _ L). apply bind_raised.
  rewrite to_csv_eq, W. reflexivity.
Qed.

Lemma table_write_error_is_raised_witness :
  main {| getenv := Mock.env (Some "mk") (Some "tk");
          w_Together := None;
          w_read_csv := inr (frame ["details"] []);
          w_post := fun _ _ => Mock.ok "X";
          w_images_generate := fun _ _ => inr [];
          w_get := fun _ u => inr u;
          w_image_open := fun b => inr (MkImage b);
          w_save := fun _ _ => None;
          w_to_csv := fun _ => Some (OtherError "Permission denied");
          w_sleep := fun _ _ => None |} [] =
  (Raised (OtherError "Permission denied"),
   [EvTogether; EvReadCsv "input.csv"]
     ++ [EvToCsv "product_information.csv" empty_results]).
Proof.
  apply (table_write_error_is_raised
           {| getenv := Mock.env (Some "mk") (Some "tk");
              w_Together := None;
              w_read_csv := inr (frame ["details"] []);
              w_post := fun _ _ => Mock.ok "X";
              w_images_generate := fun _ _ => inr [];
              w_get := fun _ u => inr u;
              w_image_open := fun b => inr (MkImage b);
              w_save := fun _ _ => None;
              w_to_csv := fun _ => Some (OtherError "Permission denied");
              w_sleep := fun _ _ => None |}
           "mk" (frame ["details"] [])).
  - reflexivity.
  - discriminate.
  - reflexivity.
  - reflexivity.
  - reflexivity.
  - reflexivity.
  - reflexivity.
Defined.

(** X10: an input table with the column but no row makes no request at
    all: [main] writes the empty table and returns. *)
Theorem empty_input_writes_empty_table
    (w : World) (key : string) (df : DataFrame) :
  getenv w "MISTRAL_API_KEY" = Some key ->
  key <> EmptyString ->
  w_Together w = None ->
  w_read_csv w = inr df ->
  existsb (String.eqb "details") (columns df) = true ->
  details df = [] ->
  w_to_csv w [EvTogether; EvReadCsv "input.csv"] = None ->
  main w [] =
  (Ok tt,
   [EvTogether; EvReadCsv "input.csv";
    EvToCsv "product_information.csv" empty_results; EvPrint MsgResultsSaved]).
Proof.
  intros K N T R C D W.
  rewrite (main_reaches_loop w key df K N T R C).
  unfold details in D. apply map_eq_nil in D.
  unfold iterrows. rewrite D. cbn [rows_loop].
  unfold bind at 1, ret. unfold bind. rewrite to_csv_eq, W. reflexivity.
Qed.

Lemma empty_input_writes_empty_table_witness :
  main (Mock.constant_world (PostRaised (ConnectionError "down")) [] (fun _ => false)) [] =
  (Ok tt,
   [EvTogether; EvReadCsv "input.csv";
    EvToCsv "product_information.csv" empty_results; EvPrint MsgResultsSaved]).
Proof.
  apply (empty_input_writes_empty_table
           (Mock.constant_world (PostRaised (ConnectionError "down")) [] (fun _ => false))
           "mk" (frame ["details"] []));
    try reflexivity.
  discriminate.
Defined.

(** * Further properties of the row loop *)



(** ** The requests of a row *)

Section RowPosts.

Variable w : World.
Variable self : MistralAPI.

(** The common shape of the four [generate_*] methods: a print, a request,
    and a continuation that sends nothing and needs a string. *)
Lemma text_call_posts m prompt (k : option string -> M string) :
  (forall x, emits (fun ev => is_post ev = false) (k x)) ->
  (forall tr s tr', k None tr <> (Ok s, tr')) ->
  forall tr,
    (count_posts (snd (bind (print m) (fun _ => bind (_make_request w self prompt) k) tr))
     <= count_posts tr + max_retries self)%nat /\
    (forall s tr',
        bind (print m) (fun _ => bind (_make_request w self prompt) k) tr = (Ok s, tr') ->
        (count_posts tr + 1 <= count_posts tr')%nat).
Proof.
  intros Hk Hn tr. rewrite bind_print. unfold bind.
  pose proof (attempts_loop_posts w self prompt (seq 0 (max_retries self))
                (tr ++ [EvPrint m])) as B.
  rewrite length_seq, count_posts_app in B.
  change (count_posts [EvPrint m]) with 0%nat in B.
  fold (_make_request w self prompt) in B.
  destruct (_make_request w self prompt (tr ++ [EvPrint m])) as [[x|e] tr1] eqn:R;
    cbn [snd] in B.
  - destruct (Hk x tr1) as (evs & E & F).
    rewrite E, count_posts_app, (count_posts_quiet _ F). split; [lia|].
    intros s tr' H. rewrite H in E. cbn [snd] in E. subst tr'.
    rewrite count_posts_app, (count_posts_quiet _ F).
    destruct x as [out|]; [|now destruct (Hn tr1 s (tr1 ++ evs))].
    apply make_request_some_posts in R. rewrite count_posts_app in R.
    change (count_posts [EvPrint m]) with 0%nat in R. lia.
  - cbn [snd]. split; [lia|]. intros s tr' H. discriminate.
Qed.

Lemma replace_on_None_fails tr s tr' : replace_on None tr <> (Ok s, tr').
Proof. discriminate. Qed.

Lemma generate_title_posts detail tr :
  (count_posts (snd (generate_title w self detail tr))
   <= count_posts tr + max_retries self)%nat /\
  (forall s tr', generate_title w self detail tr = (Ok s, tr') ->
                 (count_posts tr + 1 <= count_posts tr')%nat).
Proof.
  apply text_call_posts; [intros x; apply emits_replace_on|apply replace_on_None_fails].
Qed.

Lemma generate_image_prompt_posts detail tr :
  (count_posts (snd (generate_image_prompt w self detail tr))
   <= count_posts tr + max_retries self)%nat /\
  (forall s tr', generate_image_prompt w self detail tr = (Ok s, tr') ->
                 (count_posts tr + 1 <= count_posts tr')%nat).
Proof.
  apply text_call_posts; [intros x; apply emits_replace_on|apply replace_on_None_fails].
Qed.

Lemma generate_tags_posts detail tr :
  (count_posts (snd (generate_tags w self detail tr))
   <= count_posts tr + max_retries self)%nat /\
  (forall s tr', generate_tags w self detail tr = (Ok s, tr') ->
                 (count_posts tr + 1 <= count_posts tr')%nat).
Proof.
  apply text_call_posts; [intros x; apply emits_replace_on|apply replace_on_None_fails].
Qed.

Lemma generate_description_posts detail title tr :
  (count_posts (snd (generate_description w self detail title tr))
   <= count_posts tr + max_retries self)%nat /\
  (forall s tr', generate_description w self detail title tr = (Ok s, tr') ->
                 (count_posts tr + 1 <= count_posts tr')%nat).
Proof.
  apply text_call_posts.
  - intros x. apply emits_bind; [apply emits_replace_on|intros d; apply emits_ret].
  - intros tr0 s tr'. discriminate.
Qed.

Lemma count_posts_print tr m : count_posts (tr ++ [EvPrint m]) = count_posts tr.
Proof. rewrite count_posts_app. change (count_posts [EvPrint m]) with 0%nat. lia. Qed.

Lemma text_generated_posts detail tr t d ip tg tr4 :
  text_generated w self detail tr t d ip tg tr4 ->
  (count_posts tr + 4 <= count_posts tr4 <= count_posts tr + 4 * max_retries self)%nat.
Proof.
  intros [t0 ta d0 tb ip0 tc tg0 td H1 H2 H3 H4].
  destruct (generate_title_posts detail tr) as [U1 L1].
  destruct (generate_description_posts detail t0 (ta ++ [EvPrint (MsgTitle t0)]))
    as [U2 L2].
  destruct (generate_image_prompt_posts detail (tb ++ [EvPrint (MsgDescription d0)]))
    as [U3 L3].
  destruct (generate_tags_posts detail (tc ++ [EvPrint (MsgImagePrompt ip0)]))
    as [U4 L4].
  specialize (L1 _ _ H1). specialize (L2 _ _ H2).
  specialize (L3 _ _ H3). specialize (L4 _ _ H4).
  rewrite H1 in U1. rewrite H2 in U2. rewrite H3 in U3. rewrite H4 in U4.
  cbn [snd] in *. rewrite count_posts_print in *. lia.
Qed.

Lemma text_generation_fails_posts detail tr e tr' :
  text_generation_fails w self detail tr e tr' ->
  (count_posts tr' <= count_posts tr + 4 * max_retries self)%nat.
Proof.
  intros [H1 | t ta H1 H2 | t ta d tb H1 H2 H3 | t ta d tb ip tc H1 H2 H3 H4].
  - destruct (generate_title_posts detail tr) as [U1 _].
    rewrite H1 in U1. cbn [snd] in U1. lia.
  - destruct (generate_title_posts detail tr) as [U1 _].
    destruct (generate_description_posts detail t (ta ++ [EvPrint (MsgTitle t)]))
      as [U2 _].
    rewrite H1 in U1. rewrite H2 in U2.
    cbn [snd] in *. rewrite count_posts_print in *. lia.
  - destruct (generate_title_posts detail tr) as [U1 _].
    destruct (generate_description_posts detail t (ta ++ [EvPrint (MsgTitle t)]))
      as [U2 _].
    destruct (generate_image_prompt_posts detail (tb ++ [EvPrint (MsgDescription d)]))
      as [U3 _].
    rewrite H1 in U1. rewrite H2 in U2. rewrite H3 in U3.
    cbn [snd] in *. rewrite count_posts_print in *. lia.
  - destruct (generate_title_posts detail tr) as [U1 _].
    destruct (generate_description_posts detail t (ta ++ [EvPrint (MsgTitle t)]))
      as [U2 _].
    destruct (generate_image_prompt_posts detail (tb ++ [EvPrint (MsgDescription d)]))
      as [U3 _].
    destruct (generate_tags_posts detail (tc ++ [EvPrint (MsgImagePrompt ip)]))
      as [U4 _].
    rewrite H1 in U1. rewrite H2 in U2. rewrite H3 in U3. rewrite H4 in U4.
    cbn [snd] in *. rewrite count_posts_print in *. lia.
Qed.

Lemma emits_store_image (P : Event -> Prop) idx results t d tg r :
  (forall p i, P (EvSave p i)) ->
  emits P (store_image w idx results t d tg r).
Proof.
  intros Ps. unfold store_image. destruct (fst r); [|apply emits_ret].
  apply emits_bind; [|intros _; apply emits_ret].
  unfold image_save.
  apply emits_bind; [apply emits_history|intros tr0].
  apply emits_bind; [apply emits_emit, Ps|intros _].
  destruct (w_save w tr0 _); [apply emits_raise|apply emits_ret].
Qed.

End RowPosts.

(** X12: a row sends at most [4 * max_retries] requests to the text
    service, however it ends, and at least four when the loop body
    finishes it; the image part of the row sends none. *)
Theorem row_sends_between_four_and_all_requests
    (w : World) (mistral : MistralAPI) (client : TogetherClient)
    (idx : Label) (detail : string) (results : Results) (tr : Trace)
    (o : Outcome Results) (tr' : Trace) :
  process_row w mistral client idx detail results tr = (o, tr') ->
  (count_posts tr' <= count_posts tr + 4 * max_retries mistral)%nat /\
  match o with
  | Ok _ => (count_posts tr + 4 <= count_posts tr')%nat
  | Raised _ => True
  end.
Proof.
  intros H.
  destruct (text_generated_or_fails w mistral detail tr)
    as [(e & tr2 & F) | (t & d & ip & tg & tr4 & T)].
  - rewrite (process_row_text_fails _ _ client idx _ results _ _ _ F) in H.
    pose proof (text_generation_fails_posts w mistral detail tr e tr2 F) as B.
    inversion H; subst. split; [exact B|exact I].
  - rewrite (process_row_text_generated _ _ client idx _ results _ _ _ _ _ _ T) in H.
    apply text_generated_posts in T.
    apply (emits_run (fun ev => is_post ev = false)) in H as (evs & -> & Q).
    + rewrite count_posts_app, (count_posts_quiet _ Q). split; [lia|destruct o; [lia|exact I]].
    + apply emits_bind; [apply emits_generate_image; reflexivity|intros r].
      apply emits_store_image. reflexivity.
Qed.

Lemma row_sends_between_four_and_all_requests_witness :
  exists results' tr',
    process_row
      (Mock.world [PostRaised (ConnectionError "down"); Mock.rate_limited None;
                   Mock.ok "A"; Mock.ok "B"; Mock.ok "C"; Mock.ok "D"]
         ["cats"] (fun _ => true))
      (MistralAPI_init "mk") MkTogether "0" "cats" empty_results [] = (Ok results', tr') /\
    count_posts tr' = 6%nat /\
    (count_posts tr' <= count_posts [] + 4 * max_retries (MistralAPI_init "mk"))%nat /\
    (count_posts [] + 4 <= count_posts tr')%nat.
Proof.
  eexists. eexists. split; [lazy; reflexivity|]. split; [reflexivity|].
  refine (row_sends_between_four_and_all_requests
            (Mock.world [PostRaised (ConnectionError "down"); Mock.rate_limited None;
                         Mock.ok "A"; Mock.ok "B"; Mock.ok "C"; Mock.ok "D"]
               ["cats"] (fun _ => true))
            (MistralAPI_init "mk") MkTogether "0" "cats" empty_results [] (Ok _) _ _).
  lazy. reflexivity.
Defined.

(** X13: writing the image file is not protected the way generating the
    image is: when [image.save] raises for a row, the loop body raises
    that error, [main] raises it too, no record is added for the row and
    no table is written. *)
Theorem image_save_error_aborts_batch
    (w : World) (key : string) (df : DataFrame)
    (pre : list (Label * string)) (idx : Label) (detail : string)
    (post : list (Label * string))
    (results1 : Results) (tr1 : Trace)
    (t d ip tg : string) (tr4 : Trace) (image : Image) (url : option string)
    (tr5 : Trace) (e : Exn) :
  getenv w "MISTRAL_API_KEY" = Some key ->
  key <> EmptyString ->
  w_Together w = None ->
  w_read_csv w = inr df ->
  existsb (String.eqb "details") (columns df) = true ->
  iterrows df = pre ++ (idx, detail) :: post ->
  rows_loop w (MistralAPI_init key) MkTogether pre empty_results
    [EvTogether; EvReadCsv "input.csv"] = (Ok results1, tr1) ->
  text_generated w (MistralAPI_init key) detail tr1 t d ip tg tr4 ->
  generate_image w MkTogether ip tr4 = (Ok (Some image, url), tr5) ->
  w_save w tr5 (image_file_name idx) = Some e ->
  process_row w (MistralAPI_init key) MkTogether idx detail results1 tr1
    = (Raised e, tr5 ++ [EvSave (image_file_name idx) image]) /\
  main w [] = (Raised e, tr5 ++ [EvSave (image_file_name idx) image]) /\
  filter is_to_csv (tr5 ++ [EvSave (image_file_name idx) image]) = [].
Proof.
  intros K N T R C D L G I S.
  assert (PR : process_row w (MistralAPI_init key) MkTogether idx detail
                 results1 tr1
               = (Raised e, tr5 ++ [EvSave (image_file_name idx) image])).
  { rewrite (process_row_text_generated _ _ MkTogether idx _ results1
               _ _ _ _ _ _ G).
    rewrite (bind_ok _ _ _ _ _ I). unfold store_image. cbn [fst].
    apply bind_raised. rewrite image_save_eq, S. reflexivity. }
  split; [exact PR|]. split.
  - rewrite (main_reaches_loop w key df K N T R C).
    apply bind_raised.
    rewrite D, rows_loop_app.
    rewrite (bind_ok _ _ _ _ _ L). cbn [rows_loop]. now apply bind_raised.
  - apply (emits_run (fun ev => is_to_csv ev = false)) in L as (evs1 & -> & F1);
      [|apply emits_rows_loop; reflexivity].
    apply (emits_run (fun ev => is_to_csv ev = false)) in PR as (evs2 & E2 & F2);
      [|apply emits_process_row; reflexivity].
    rewrite E2, !filter_app, (filter_quiet _ _ F1), (filter_quiet _ _ F2). reflexivity.
Qed.

Lemma image_save_error_aborts_batch_witness :
  exists tr,
    main {| getenv := Mock.env (Some "mk") (Some "tk");
            w_Together := None;
            w_read_csv := inr (frame ["details"] ["cats"; "dogs"]);
            w_post := fun _ _ => Mock.ok "X";
            w_images_generate := fun _ p => inr [("https://img/" ++ p)%string];
            w_get := fun _ u => inr u;
            w_image_open := fun b => inr (MkImage b);
            w_save := fun _ _ => Some (OtherError "No space left on device");
            w_to_csv := fun _ => None;
            w_sleep := fun _ _ => None |} [] =
      (Raised (OtherError "No space left on device"), tr) /\
    filter is_to_csv tr = [] /\
    saved_paths tr = ["image_0.png"].
Proof.
  edestruct (image_save_error_aborts_batch
               {| getenv := Mock.env (Some "mk") (Some "tk");
                  w_Together := None;
                  w_read_csv := inr (frame ["details"] ["cats"; "dogs"]);
                  w_post := fun _ _ => Mock.ok "X";
                  w_images_generate := fun _ p => inr [("https://img/" ++ p)%string];
                  w_get := fun _ u => inr u;
                  w_image_open := fun b => inr (MkImage b);
                  w_save := fun _ _ => Some (OtherError "No space left on device");
                  w_to_csv := fun _ => None;
                  w_sleep := fun _ _ => None |}
               "mk" (frame ["details"] ["cats"; "dogs"])
               [] "0" "cats" [("1", "dogs")])
    as (_ & Hmain & Hcsv).
  - reflexivity.
  - discriminate.
  - reflexivity.
  - reflexivity.
  - reflexivity.
  - reflexivity.
  - lazy. reflexivity.
  - eapply text_generated_intro; lazy; reflexivity.
  - lazy. reflexivity.
  - lazy. reflexivity.
  - eexists. split; [exact Hmain|]. split; [exact Hcsv|]. lazy. reflexivity.
Defined.

(** ** File names *)










(** * Whole runs *)

Section SteadyTextService.

Variable w : World.
Variable self : MistralAPI.
Variable c : string.
Hypothesis attempts_allowed : (0 < max_retries self)%nat.
Hypothesis always_answers : forall tr p, answers (w_post w tr p) c.

Lemma count_posts_post tr p :
  count_posts (tr ++ [post_event self p]) = S (count_posts tr).
Proof.
  rewrite count_posts_app. change (count_posts [post_event self p]) with 1%nat. lia.
Qed.

Lemma saved_paths_print tr m : saved_paths (tr ++ [EvPrint m]) = saved_paths tr.
Proof. rewrite saved_paths_app. cbn. apply app_nil_r. Qed.

Lemma saved_paths_post tr p : saved_paths (tr ++ [post_event self p]) = saved_paths tr.
Proof. rewrite saved_paths_app. cbn. apply app_nil_r. Qed.

Lemma text_call_answers m prompt (k : option string -> M string) tr :
  bind (print m) (fun _ => bind (_make_request w self prompt) k) tr =
  k (Some (PyStr.strip c)) ((tr ++ [EvPrint m]) ++ [post_event self prompt]).
Proof.
  rewrite bind_print.
  now rewrite (bind_ok _ _ _ _ _
                 (make_request_answers w self prompt (tr ++ [EvPrint m]) c
                    attempts_allowed (always_answers _ _))).
Qed.

(** With a text service that always answers [c], the text of a row is
    generated with four requests. *)
Lemma text_generated_steady detail tr :
  exists tr4,
    text_generated w self detail tr
      (PyStr.replace_quote (PyStr.strip c))
      (PyStr.replace_quote (PyStr.strip c) ++ _get_template_description)%string
      (PyStr.replace_quote (PyStr.strip c))
      (PyStr.replace_quote (PyStr.strip c)) tr4 /\
    count_posts tr4 = (count_posts tr + 4)%nat /\
    saved_paths tr4 = saved_paths tr.
Proof.
  eexists. split.
  - eapply text_generated_intro.
    + unfold generate_title. rewrite text_call_answers. reflexivity.
    + unfold generate_description. rewrite text_call_answers. reflexivity.
    + unfold generate_image_prompt. rewrite text_call_answers. reflexivity.
    + unfold generate_tags. rewrite text_call_answers. reflexivity.
  - split.
    + repeat (rewrite ?count_posts_print, ?count_posts_post). lia.
    + repeat (rewrite ?saved_paths_print, ?saved_paths_post). reflexivity.
Qed.

End SteadyTextService.

Section SteadyRun.

Variable w : World.
Variable self : MistralAPI.
Variable client : TogetherClient.
Variable c : string.
Hypothesis attempts_allowed : (0 < max_retries self)%nat.
Hypothesis always_answers : forall tr p, answers (w_post w tr p) c.

Local Abbreviation t := (PyStr.replace_quote (PyStr.strip c)).

Lemma generate_image_quiet p tr r tr' :
  generate_image w client p tr = (Ok r, tr') ->
  count_posts tr' = count_posts tr /\ saved_paths tr' = saved_paths tr.
Proof.
  intros H. split.
  - apply (emits_run (fun ev => is_post ev = false)) in H as (evs & -> & F);
      [|apply emits_generate_image; reflexivity].
    rewrite count_posts_app, (count_posts_quiet _ F). lia.
  - apply (emits_run (fun ev => is_save ev = false)) in H as (evs & -> & F);
      [|apply emits_generate_image; reflexivity].
    rewrite saved_paths_app, (saved_paths_quiet _ F). apply app_nil_r.
Qed.

Section ImagesServed.

Hypothesis images_served :
  forall tr p, exists u us, w_images_generate w tr p = inr (u :: us).
Hypothesis images_fetched : forall tr u, exists b, w_get w tr u = inr b.
Hypothesis images_decoded : forall b, exists i, w_image_open w b = inr i.
Hypothesis images_saved : forall tr p, w_save w tr p = None.

Lemma generate_image_served p tr :
  exists image url tr5, generate_image w client p tr = (Ok (Some image, Some url), tr5).
Proof.
  rewrite generate_image_eq.
  unfold generate_image_try, bind, history, emit, lift, print, emit.
  destruct (images_served (tr ++ [EvPrint MsgGeneratingImage]) p) as (u & us & ->).
  cbn.
  destruct (images_fetched
              (((tr ++ [EvPrint MsgGeneratingImage]) ++ [EvImagesGenerate p])
                 ++ [EvPrint (MsgImageURL u)]) u) as (b & ->).
  unfold ret at 1. destruct (images_decoded b) as (i & ->). cbn. eauto.
Qed.

Lemma process_row_served idx detail results tr :
  exists tr',
    process_row w self client idx detail results tr =
      (Ok (append_record results (image_file_name idx) t
             (t ++ _get_template_description)%string t), tr') /\
    count_posts tr' = (count_posts tr + 4)%nat /\
    saved_paths tr' = saved_paths tr ++ [image_file_name idx].
Proof.
  destruct (text_generated_steady w self c attempts_allowed always_answers detail tr)
    as (tr4 & T & C4 & S4).
  destruct (generate_image_served t tr4) as (image & url & tr5 & G).
  destruct (generate_image_quiet _ _ _ _ G) as [C5 S5].
  exists (tr5 ++ [EvSave (image_file_name idx) image]). split; [|split].
  - exact (process_row_image_ok w self client idx detail results tr _ _ _ _ tr4
             image (Some url) tr5 T G (images_saved _ _)).
  - rewrite count_posts_app.
    change (count_posts [EvSave (image_file_name idx) image]) with 0%nat. lia.
  - rewrite saved_paths_app, S5, S4. reflexivity.
Qed.

Lemma rows_loop_served (rows : list (Label * string)) :
  forall results tr,
    exists tr',
      rows_loop w self client rows results tr =
        (Ok {| col_file_name :=
                 col_file_name results ++ map image_file_name (map fst rows);
               col_local_path :=
                 col_local_path results ++ map image_file_name (map fst rows);
               col_title := col_title results ++ repeat t (List.length rows);
               col_description :=
                 col_description results
                 ++ repeat (t ++ _get_template_description)%string (List.length rows);
               col_tags := col_tags results ++ repeat t (List.length rows) |}, tr') /\
      count_posts tr' = (count_posts tr + 4 * List.length rows)%nat /\
      saved_paths tr' = saved_paths tr ++ map image_file_name (map fst rows).
Proof.
  induction rows as [|[idx d] rows IH]; intros results tr.
  - exists tr. cbn. rewrite !app_nil_r. destruct results. repeat split; lia.
  - cbn [List.length map fst rows_loop].
    destruct (process_row_served idx d results tr) as (tr1 & PR & C1 & S1).
    destruct (IH (append_record results (image_file_name idx) t
                    (t ++ _get_template_description)%string t) tr1)
      as (tr' & L & C & S).
    exists tr'. rewrite (bind_ok _ _ _ _ _ PR), L. cbn [append_record col_file_name
      col_local_path col_title col_description col_tags map repeat].
    rewrite <- !app_assoc. cbn [app]. split; [reflexivity|]. split.
    + lia.
    + rewrite S, S1, <- app_assoc. reflexivity.
Qed.

End ImagesServed.

End SteadyRun.

(** ** A text service that always answers *)

Ltac answered N A :=
  rewrite bind_print;
  match goal with
  | |- context [bind (_make_request ?w ?self ?p) _ ?t] =>
      let c := fresh "c" in
      let Ac := fresh "Ac" in
      destruct (A t p) as [c Ac];
      exists c, p;
      rewrite (bind_ok _ _ _ _ _ (make_request_answers w self p t c N Ac));
      reflexivity
  end.

Section AnsweringTextService.

Variable w : World.
Variable self : MistralAPI.
Hypothesis attempts_allowed : (0 < max_retries self)%nat.
Hypothesis always_answers : forall tr p, exists c, answers (w_post w tr p) c.

Lemma generate_title_answered detail tr :
  exists c p,
    generate_title w self detail tr =
    (Ok (PyStr.replace_quote (PyStr.strip c)),
     (tr ++ [EvPrint MsgGeneratingTitle]) ++ [post_event self p]).
Proof. unfold generate_title. answered attempts_allowed always_answers. Qed.

Lemma generate_description_answered detail title tr :
  exists c p,
    generate_description w self detail title tr =
    (Ok (PyStr.replace_quote (PyStr.strip c) ++ _get_template_description)%string,
     (tr ++ [EvPrint MsgGeneratingDescription]) ++ [post_event self p]).
Proof. unfold generate_description. answered attempts_allowed always_answers. Qed.

Lemma generate_image_prompt_answered detail tr :
  exists c p,
    generate_image_prompt w self detail tr =
    (Ok (PyStr.replace_quote (PyStr.strip c)),
     (tr ++ [EvPrint MsgGeneratingImagePrompt]) ++ [post_event self p]).
Proof. unfold generate_image_prompt. answered attempts_allowed always_answers. Qed.

Lemma generate_tags_answered detail tr :
  exists c p,
    generate_tags w self detail tr =
    (Ok (PyStr.replace_quote (PyStr.strip c)),
     (tr ++ [EvPrint MsgGeneratingTags]) ++ [post_event self p]).
Proof. unfold generate_tags. answered attempts_allowed always_answers. Qed.

(** With a text service that always answers, the text of a row is
    generated with four requests. *)
Lemma text_generated_answered detail tr :
  exists t d ip tg tr4,
    text_generated w self detail tr t d ip tg tr4 /\
    count_posts tr4 = (count_posts tr + 4)%nat /\
    saved_paths tr4 = saved_paths tr.
Proof.
  destruct (generate_title_answered detail tr) as (c1 & p1 & H1).
  remember (PyStr.replace_quote (PyStr.strip c1)) as t eqn:Et.
  remember ((tr ++ [EvPrint MsgGeneratingTitle]) ++ [post_event self p1]) as ta eqn:Ea.
  destruct (generate_description_answered detail t (ta ++ [EvPrint (MsgTitle t)]))
    as (c2 & p2 & H2).
  remember (PyStr.replace_quote (PyStr.strip c2) ++ _get_template_description)%string
    as d eqn:Ed.
  remember (((ta ++ [EvPrint (MsgTitle t)]) ++ [EvPrint MsgGeneratingDescription])
              ++ [post_event self p2]) as tb eqn:Eb.
  destruct (generate_image_prompt_answered detail (tb ++ [EvPrint (MsgDescription d)]))
    as (c3 & p3 & H3).
  remember (PyStr.replace_quote (PyStr.strip c3)) as ip eqn:Ei.
  remember (((tb ++ [EvPrint (MsgDescription d)]) ++ [EvPrint MsgGeneratingImagePrompt])
              ++ [post_event self p3]) as tc eqn:Ec.
  destruct (generate_tags_answered detail (tc ++ [EvPrint (MsgImagePrompt ip)]))
    as (c4 & p4 & H4).
  do 5 eexists. split; [exact (text_generated_intro _ _ _ _ _ _ _ _ _ _ _ _ H1 H2 H3 H4)|].
  subst ta tb tc. split.
  - repeat (rewrite ?count_posts_print, ?count_posts_post by exact attempts_allowed). lia.
  - repeat (rewrite ?saved_paths_print, ?saved_paths_post). reflexivity.
Qed.

Hypothesis images_refused : forall tr p, exists e, w_images_generate w tr p = inl e.

Lemma process_row_refused client idx detail results tr :
  exists tr',
    process_row w self client idx detail results tr = (Ok results, tr') /\
    count_posts tr' = (count_posts tr + 4)%nat /\
    saved_paths tr' = saved_paths tr.
Proof.
  destruct (text_generated_answered detail tr) as (t & d & ip & tg & tr4 & T & C4 & S4).
  destruct (images_refused (tr4 ++ [EvPrint MsgGeneratingImage]) ip) as (e & E).
  pose proof (generate_image_try_call_raises w client ip _ e E) as I.
  assert (G : generate_image w client ip tr4 =
              (Ok (None, None),
               ((tr4 ++ [EvPrint MsgGeneratingImage]) ++ [EvImagesGenerate ip])
                 ++ [EvPrint (MsgImageError e)])).
  { rewrite generate_image_eq, I. reflexivity. }
  destruct (generate_image_quiet w self client attempts_allowed _ _ _ _ G) as [C5 S5].
  eexists. split; [|split].
  - rewrite (process_row_text_generated _ _ client idx _ results _ _ _ _ _ _ T).
    rewrite (bind_ok _ _ _ _ _ G). reflexivity.
  - lia.
  - now rewrite S5.
Qed.

Lemma rows_loop_refused client rows :
  forall results tr,
    exists tr',
      rows_loop w self client rows results tr = (Ok results, tr') /\
      count_posts tr' = (count_posts tr + 4 * List.length rows)%nat /\
      saved_paths tr' = saved_paths tr.
Proof.
  induction rows as [|[idx detail] rows IH]; intros results tr.
  - exists tr. cbn. repeat split; lia.
  - destruct (process_row_refused client idx detail results tr) as (tr1 & PR & C1 & S1).
    destruct (IH results tr1) as (tr' & L & C & S).
    exists tr'. cbn [rows_loop List.length]. rewrite (bind_ok _ _ _ _ _ PR), L.
    split; [reflexivity|]. split; [lia|]. now rewrite S, S1.
Qed.

End AnsweringTextService.

(** X15: when nothing fails (the text service always answers with content
    [c], the image service, the fetch, the decoding and the two writes
    succeed), [main] returns after four requests per row, writes one image
    file per row, named after the index label of the row, in input order,
    and writes a table with one record per input row, in input order: each
    record has its image file as file name and local path, the
    quote-stripped answer as title and tags, and the same followed by the
    template as description. *)
Theorem run_without_failure_records_every_row
    (w : World) (key : string) (df : DataFrame) (c : string) :
  getenv w "MISTRAL_API_KEY" = Some key ->
  key <> EmptyString ->
  w_Together w = None ->
  w_read_csv w = inr df ->
  existsb (String.eqb "details") (columns df) = true ->
  (forall tr p, answers (w_post w tr p) c) ->
  (forall tr p, exists u us, w_images_generate w tr p = inr (u :: us)) ->
  (forall tr u, exists b, w_get w tr u = inr b) ->
  (forall b, exists i, w_image_open w b = inr i) ->
  (forall tr p, w_save w tr p = None) ->
  (forall tr, w_to_csv w tr = None) ->
  exists tr,
    main w [] =
    (Ok tt,
     tr ++ [EvToCsv "product_information.csv"
              {| col_file_name :=
                   map (fun k => "image_" ++ k ++ ".png")%string (index df);
                 col_local_path :=
                   map (fun k => "image_" ++ k ++ ".png")%string (index df);
                 col_title :=
                   repeat (PyStr.replace_quote (PyStr.strip c)) (List.length (details df));
                 col_description :=
                   repeat (PyStr.replace_quote (PyStr.strip c)
                           ++ _get_template_description)%string
                          (List.length (details df));
                 col_tags :=
                   repeat (PyStr.replace_quote (PyStr.strip c))
                          (List.length (details df)) |};
            EvPrint MsgResultsSaved]) /\
    count_posts tr = (4 * List.length (details df))%nat /\
    saved_paths tr = map (fun k => "image_" ++ k ++ ".png")%string (index df).
Proof.
  intros K N T R C A Hg Hf Ho Hs Hc.
  rewrite (main_reaches_loop w key df K N T R C). unfold iterrows, index, details.
  rewrite length_map.
  destruct (rows_loop_served w (MistralAPI_init key) MkTogether c
              ltac:(cbn; lia) A Hg Hf Ho Hs (df_rows df) empty_results
              [EvTogether; EvReadCsv "input.csv"]) as (tr' & L & Cp & Sp).
  exists tr'. rewrite (bind_ok _ _ _ _ _ L). cbn [empty_results col_file_name
    col_local_path col_title col_description col_tags app].
  unfold bind. rewrite to_csv_eq, Hc. unfold print, emit. rewrite <- app_assoc.
  split; [reflexivity|]. split; [exact Cp|exact Sp].
Qed.

Lemma run_without_failure_records_every_row_witness :
  exists tr,
    main (Mock.constant_world (Mock.ok " X ") ["cats"; "dogs"] (fun _ => true)) [] =
    (Ok tt,
     tr ++ [EvToCsv "product_information.csv"
              {| col_file_name := ["image_0.png"; "image_1.png"];
                 col_local_path := ["image_0.png"; "image_1.png"];
                 col_title := repeat (PyStr.replace_quote (PyStr.strip " X ")) 2;
                 col_description :=
                   repeat (PyStr.replace_quote (PyStr.strip " X ")
                           ++ _get_template_description)%string 2;
                 col_tags := repeat (PyStr.replace_quote (PyStr.strip " X ")) 2 |};
            EvPrint MsgResultsSaved]) /\
    count_posts tr = (4 * 2)%nat /\
    saved_paths tr = ["image_0.png"; "image_1.png"].
Proof.
  apply (run_without_failure_records_every_row
           (Mock.constant_world (Mock.ok " X ") ["cats"; "dogs"] (fun _ => true))
           "mk" (frame ["details"] ["cats"; "dogs"]) " X ").
  - reflexivity.
  - discriminate.
  - reflexivity.
  - reflexivity.
  - reflexivity.
  - intros tr p.
    exists {| status_code := 200; retry_after := None; content := Some " X " |}.
    simpl. repeat split; try reflexivity; lia.
  - intros tr p. simpl. eauto.
  - intros tr u. simpl. eauto.
  - intros b. simpl. eauto.
  - reflexivity.
  - reflexivity.
Defined.

(** X16: when the text service always answers (with whatever content)
    but the image service refuses every call, [main] still returns: it
    sends four requests per row, writes no image file, and writes the
    empty table. *)
Theorem run_without_images_writes_empty_table
    (w : World) (key : string) (df : DataFrame) :
  getenv w "MISTRAL_API_KEY" = Some key ->
  key <> EmptyString ->
  w_Together w = None ->
  w_read_csv w = inr df ->
  existsb (String.eqb "details") (columns df) = true ->
  (forall tr p, exists c, answers (w_post w tr p) c) ->
  (forall tr p, exists e, w_images_generate w tr p = inl e) ->
  (forall tr, w_to_csv w tr = None) ->
  exists tr,
    main w [] =
    (Ok tt, tr ++ [EvToCsv "product_information.csv" empty_results;
                   EvPrint MsgResultsSaved]) /\
    count_posts tr = (4 * List.length (details df))%nat /\
    saved_paths tr = [].
Proof.
  intros K N T R C A Hr Hc.
  rewrite (main_reaches_loop w key df K N T R C).
  destruct (rows_loop_refused w (MistralAPI_init key)
              ltac:(cbn; lia) A Hr MkTogether (iterrows df) empty_results
              [EvTogether; EvReadCsv "input.csv"]) as (tr' & L & Cp & Sp).
  exists tr'. rewrite (bind_ok _ _ _ _ _ L).
  unfold bind. rewrite to_csv_eq, Hc. unfold print, emit. rewrite <- app_assoc.
  split; [reflexivity|]. split; [|exact Sp].
  rewrite Cp. unfold iterrows, details. now rewrite length_map.
Qed.

Lemma run_without_images_writes_empty_table_witness :
  exists tr,
    main (Mock.echo_world ["cats"; "dogs"] (fun _ => false)) [] =
    (Ok tt, tr ++ [EvToCsv "product_information.csv" empty_results;
                   EvPrint MsgResultsSaved]) /\
    count_posts tr = (4 * 2)%nat /\
    saved_paths tr = [].
Proof.
  apply (run_without_images_writes_empty_table
           (Mock.echo_world ["cats"; "dogs"] (fun _ => false))
           "mk" (frame ["details"] ["cats"; "dogs"])).
  - reflexivity.
  - discriminate.
  - reflexivity.
  - reflexivity.
  - reflexivity.
  - intros tr p. exists p.
    exists {| status_code := 200; retry_after := None; content := Some p |}.
    simpl. repeat split; try reflexivity; lia.
  - intros tr p. simpl. eauto.
  - reflexivity.
Defined.

(** * What a run may do *)

Section EmitsOf.

Variable w : World.
Variable self : MistralAPI.
Variable P : Event -> Prop.
Hypothesis P_print : forall m, P (EvPrint m).
Hypothesis P_sleep : forall n, P (EvSleep n).
Hypothesis P_post_self : forall p, P (post_event self p).
Hypothesis P_generate : forall p, P (EvImagesGenerate p).
Hypothesis P_get : forall u, P (EvGet u).
Hypothesis P_save_name : forall idx i, P (EvSave (image_file_name idx) i).

Lemma emits_attempts_loop_of prompt attempts :
  emits P (attempts_loop w self prompt attempts).
Proof.
  induction attempts as [|attempt rest IH]; cbn [attempts_loop]; [emits_step|].
  apply emits_try_except.
  - intros tr.
    destruct (try_body_trace w P P_print P_sleep self prompt attempt tr) as (evs & E & F).
    exists (post_event self prompt :: evs). split; [exact E|].
    constructor; [apply P_post_self|exact F].
  - intros [|s]; [exact IH|emits_step].
  - intros e. destruct (_ <? _); [|emits_step].
    apply emits_bind; [now apply emits_print|intros _].
    apply emits_bind; [now apply emits_time_sleep|intros _]. exact IH.
Qed.

Lemma emits_text_call_of m prompt (k : option string -> M string) :
  (forall x, emits P (k x)) ->
  emits P (bind (print m) (fun _ => bind (_make_request w self prompt) k)).
Proof.
  intros Hk. apply emits_bind; [now apply emits_print|intros _].
  apply emits_bind; [apply emits_attempts_loop_of|exact Hk].
Qed.

Lemma emits_process_row_of client idx detail results :
  emits P (process_row w self client idx detail results).
Proof.
  unfold process_row.
  apply emits_bind;
    [apply emits_text_call_of; intros x; now apply emits_replace_on|intros t].
  apply emits_bind; [now apply emits_print|intros _].
  apply emits_bind.
  { apply emits_text_call_of. intros x.
    apply emits_bind; [now apply emits_replace_on|intros d; emits_step]. }
  intros d.
  apply emits_bind; [now apply emits_print|intros _].
  apply emits_bind;
    [apply emits_text_call_of; intros x; now apply emits_replace_on|intros ip].
  apply emits_bind; [now apply emits_print|intros _].
  apply emits_bind;
    [apply emits_text_call_of; intros x; now apply emits_replace_on|intros tg].
  apply emits_bind; [now apply emits_print|intros _].
  apply emits_bind; [now apply emits_generate_image|intros r].
  destruct (fst r) as [image|]; [|emits_step].
  apply emits_bind; [|intros _; emits_step].
  unfold image_save.
  apply emits_bind; [emits_step|intros tr0].
  apply emits_bind; [apply emits_emit, P_save_name|intros _].
  destruct (w_save w tr0 _); emits_step.
Qed.

Lemma emits_rows_loop_of client rows :
  forall results, emits P (rows_loop w self client rows results).
Proof.
  induction rows as [|[idx detail] rest IH]; intros results; cbn [rows_loop];
    [emits_step|].
  apply emits_bind; [apply emits_process_row_of|intros r]. apply IH.
Qed.

End EmitsOf.

Lemma emits_main (w : World) (P : Event -> Prop) :
  (forall m, P (EvPrint m)) ->
  (forall n, P (EvSleep n)) ->
  (forall key p, getenv w "MISTRAL_API_KEY" = Some key ->
                 P (post_event (MistralAPI_init key) p)) ->
  (forall p, P (EvImagesGenerate p)) ->
  (forall u, P (EvGet u)) ->
  (forall idx i, P (EvSave (image_file_name idx) i)) ->
  P EvTogether ->
  P (EvReadCsv "input.csv") ->
  (forall r, P (EvToCsv "product_information.csv" r)) ->
  emits P (main w).
Proof.
  intros Pp Ps Po Pg Pf Pv Pt Pr Pc. unfold main.
  destruct (getenv w "MISTRAL_API_KEY") as [key|] eqn:K; cbn [falsy]; [|emits_step].
  destruct (String.eqb key EmptyString); [emits_step|].
  apply emits_bind.
  { unfold Together. apply emits_bind; [now apply emits_emit|intros _].
    destruct (w_Together w); emits_step. }
  intros client. apply emits_bind.
  { unfold read_input. apply emits_bind; [now apply emits_emit|intros _].
    destruct (w_read_csv w) as [[]|]; emits_step. }
  intros df. destruct (negb _); [emits_step|].
  apply emits_bind; [apply emits_rows_loop_of; auto|intros results].
  apply emits_bind; [|intros _; now apply emits_print].
  unfold to_csv. apply emits_bind; [emits_step|intros tr0].
  apply emits_bind; [apply emits_emit, Pc|intros _].
  destruct (w_to_csv w tr0); emits_step.
Qed.

(** X17: every [requests.post] of a run of [main], that is every
    text-generation request, goes to the Mistral endpoint, carries the
    value of MISTRAL_API_KEY as its key and has the timeout of 30 seconds,
    however the run ends.  The call of the image service and the
    [requests.get] of the image are other requests, which this property
    does not constrain. *)
Theorem run_posts_only_to_mistral
    (w : World) (key : string) (o : Outcome unit) (tr : Trace) :
  getenv w "MISTRAL_API_KEY" = Some key ->
  main w [] = (o, tr) ->
  Forall (to_mistral key) tr.
Proof.
  intros K H.
  apply (emits_run (to_mistral key)) in H as (evs & -> & F); [exact F|].
  apply emits_main; cbn; auto.
  intros k p Hk. rewrite K in Hk. injection Hk as <-. auto.
Qed.

Lemma run_posts_only_to_mistral_witness :
  Forall (to_mistral "mk")
    (snd (main (Mock.world [Mock.rate_limited None; Mock.ok "A"; Mock.ok "B"]
                  ["cats"] (fun _ => true)) [])) /\
  count_posts
    (snd (main (Mock.world [Mock.rate_limited None; Mock.ok "A"; Mock.ok "B"]
                  ["cats"] (fun _ => true)) [])) = 6%nat.
Proof.
  split; [|reflexivity].
  apply (run_posts_only_to_mistral
           (Mock.world [Mock.rate_limited None; Mock.ok "A"; Mock.ok "B"]
              ["cats"] (fun _ => true))
           "mk" (Raised (ConnectionError "connection refused"))).
  - reflexivity.
  - vm_compute. reflexivity.
Defined.



(** * Back-off and the growth of the results *)

Lemma sleeps_app (a b : Trace) : sleeps (a ++ b) = sleeps a ++ sleeps b.
Proof. apply flat_map_app. Qed.

Lemma attempts_loop_backoff (w : World) (self : MistralAPI) (prompt : string) :
  (forall tr, exists r, w_post w tr prompt = PostReturned r /\
                        status_code r = 429 /\ retry_after r = None) ->
  forall k a tr,
    (forall i, (a <= i < a + k)%nat ->
               can_sleep w (retry_delay self * (Z.of_nat i + 1))) ->
    exists tr',
      attempts_loop w self prompt (seq a k) tr = (Ok None, tr') /\
      sleeps tr' =
      sleeps tr ++ map (fun i => retry_delay self * (Z.of_nat i + 1)) (seq a k).
Proof.
  intros H. induction k as [|k IH]; intros a tr D.
  - exists tr. cbn. now rewrite app_nil_r.
  - destruct (H tr) as (r & E & St & N).
    assert (R : rate_limited w self a (w_post w tr prompt)
                  (retry_delay self * (Z.of_nat a + 1))).
    { exists r. repeat split; auto; [now apply wait_default|apply D; lia]. }
    cbn [seq].
    rewrite (attempts_loop_continue w self prompt a _ tr _
               (try_body_rate_limited w self prompt a tr _ R)).
    destruct (IH (S a) (tr ++ [post_event self prompt;
                               EvPrint (MsgRateLimited (retry_delay self * (Z.of_nat a + 1)));
                               EvSleep (retry_delay self * (Z.of_nat a + 1))]))
      as (tr' & L & Sl).
    { intros i Hi. apply D. lia. }
    exists tr'. split; [exact L|].
    rewrite Sl, sleeps_app. cbn. rewrite <- app_assoc. reflexivity.
Qed.

(** X19: the back-off under rate limiting is linear: when every answer is
    a 429 without a Retry-After header, [_make_request] sleeps
    [retry_delay], then twice that, then three times that, and so on, once
    after each of its [max_retries] requests, and returns [None], provided
    [time.sleep] sleeps each of these lengths. *)
Theorem rate_limit_backoff_is_linear
    (w : World) (self : MistralAPI) (prompt : string) (tr : Trace) :
  (forall i, (i < max_retries self)%nat ->
             can_sleep w (retry_delay self * (Z.of_nat i + 1))) ->
  (forall tr0, exists r, w_post w tr0 prompt = PostReturned r /\
                         status_code r = 429 /\ retry_after r = None) ->
  exists tr',
    _make_request w self prompt tr = (Ok None, tr') /\
    sleeps tr' =
    sleeps tr ++ map (fun i => retry_delay self * (Z.of_nat i + 1))
                     (seq 0 (max_retries self)).
Proof.
  intros D H.
  apply (attempts_loop_backoff w self prompt H (max_retries self) 0%nat tr).
  intros i Hi. apply D. lia.
Qed.

Lemma rate_limit_backoff_is_linear_witness :
  exists tr',
    _make_request (Mock.constant_world (Mock.rate_limited None) [] (fun _ => true))
      (MistralAPI_init "mk") "p" [] = (Ok None, tr') /\
    sleeps tr' =
    sleeps [] ++ map (fun i => retry_delay (MistralAPI_init "mk") * (Z.of_nat i + 1))
                     (seq 0 (max_retries (MistralAPI_init "mk"))).
Proof.
  apply (rate_limit_backoff_is_linear
           (Mock.constant_world (Mock.rate_limited None) [] (fun _ => true))
           (MistralAPI_init "mk") "p" []).
  - intros i Hi. apply can_sleep_short.
    change (retry_delay (MistralAPI_init "mk")) with 2.
    change (max_retries (MistralAPI_init "mk")) with 3%nat in Hi. lia.
  - intros tr0. exists {| status_code := 429; retry_after := None; content := None |}.
    repeat split; reflexivity.
Defined.

Lemma extends_results_refl r : extends_results r r.
Proof.
  exists [], [], [], [], []. rewrite !app_nil_r. repeat split; reflexivity.
Qed.

Lemma extends_results_trans a b c :
  extends_results a b -> extends_results b c -> extends_results a c.
Proof.
  intros (f1 & l1 & t1 & d1 & g1 & A1 & B1 & C1 & D1 & E1 & L1 & T1 & Dd1 & G1)
         (f2 & l2 & t2 & d2 & g2 & A2 & B2 & C2 & D2 & E2 & L2 & T2 & Dd2 & G2).
  exists (f1 ++ f2), (l1 ++ l2), (t1 ++ t2), (d1 ++ d2), (g1 ++ g2).
  rewrite A2, A1, B2, B1, C2, C1, D2, D1, E2, E1, !length_app, <- !app_assoc.
  repeat split; lia.
Qed.

(** X20: the results only grow: when the loop over any rows finishes, each
    of the five columns is the column it started with followed by new
    entries, the same number in each column; no earlier record is dropped
    or changed. *)
Theorem results_only_grow
    (w : World) (mistral : MistralAPI) (client : TogetherClient)
    (rows : list (Label * string)) (results : Results) (tr : Trace)
    (results' : Results) (tr' : Trace) :
  rows_loop w mistral client rows results tr = (Ok results', tr') ->
  extends_results results results'.
Proof.
  revert results tr. induction rows as [|[idx detail] rows IH]; intros results tr H.
  - injection H as <- <-. apply extends_results_refl.
  - cbn [rows_loop] in H. apply bind_inv_ok in H as (r1 & tr1 & PR & L).
    apply IH in L. apply extends_results_trans with r1; [|exact L].
    apply process_row_ok_inv in PR as (t & d & ip & tg & tr4 & _ & [(-> & _) | (-> & _)]).
    + apply extends_results_refl.
    + exists [image_file_name idx], [image_file_name idx], [t], [d], [tg].
      cbn. repeat split; reflexivity.
Qed.

Lemma results_only_grow_witness :
  extends_results
    {| col_file_name := ["old.png"]; col_local_path := ["old.png"];
       col_title := ["T"]; col_description := ["D"]; col_tags := ["G"] |}
    {| col_file_name := ["old.png"; "image_7.png"];
       col_local_path := ["old.png"; "image_7.png"];
       col_title := ["T"; "X"];
       col_description := ["D"; ("X" ++ _get_template_description)%string];
       col_tags := ["G"; "X"] |}.
Proof.
  apply (results_only_grow
           (Mock.constant_world (Mock.ok "X") [] (fun _ => true))
           (MistralAPI_init "mk") MkTogether [("7", "cats")]
           {| col_file_name := ["old.png"]; col_local_path := ["old.png"];
              col_title := ["T"]; col_description := ["D"]; col_tags := ["G"] |}
           []
           {| col_file_name := ["old.png"; "image_7.png"];
              col_local_path := ["old.png"; "image_7.png"];
              col_title := ["T"; "X"];
              col_description := ["D"; ("X" ++ _get_template_description)%string];
              col_tags := ["G"; "X"] |}
           (snd (rows_loop (Mock.constant_world (Mock.ok "X") [] (fun _ => true))
                   (MistralAPI_init "mk") MkTogether [("7", "cats")]
                   {| col_file_name := ["old.png"]; col_local_path := ["old.png"];
                      col_title := ["T"]; col_description := ["D"]; col_tags := ["G"] |}
                   []))).
  vm_compute. reflexivity.
Defined.
